(** * ChartMuseum multitenant request handlers

    A shallow embedding of
    [pkg/chartmuseum/server/multitenant/handlers.go]: the handlers that
    ingest, delete and fetch chart packages and provenance files on top of
    a storage backend offering only [GetObject], [PutObject] and
    [DeleteObject].

    Handlers are computations in a small state monad over the backend
    state and the log of storage calls issued so far; every handler ends
    in exactly one [Response] (the single [c.JSON] call of each path). *)

From Stdlib Require Import ZArith Ascii String.
From stdpp Require Import base gmap list strings.

Local Open Scope Z_scope.
Local Open Scope string_scope.
Local Open Scope list_scope.

(** ** Basic data *)

(** Go's [[]byte]. *)
Definition bytes : Type := list Byte.byte.

(** A Go [error] value is rendered by [fmt.Sprintf("%s", err)]; it is
    modelled by the message it prints. *)
Definition error := string.

(** A Go result pair [(v, err)]: [Ok v] when [err == nil]. *)
Inductive result (A : Type) : Type :=
| Ok (v : A)
| Err (e : error).
Arguments Ok {A} v.
Arguments Err {A} e.

(** [storage.Object], as far as the handlers look at it. *)
Record Object := {
  Path : string;
  Content : bytes;
}.

(** [HTTPError] of the source. *)
Record HTTPError := {
  HTTPError_Status : Z;
  HTTPError_Message : string;
}.

(** A chart version record of the index (an abbreviated
    [helm_repo.ChartVersion]; the handlers never inspect it). *)
Record ChartVersion := {
  cv_Name : string;
  cv_Version : string;
  cv_Digest : string;
}.

(** The JSON bodies the handlers send. *)
Inductive Body :=
| H_error (msg : string)            (* gin.H{"error": msg} *)
| H_saved                           (* objectSavedResponse *)
| H_deleted                         (* gin.H{"deleted": true} *)
| JSON_chartVersion (cv : ChartVersion).

Definition objectSavedResponse := H_saved.
Definition objectDeletedResponse := H_deleted.
Definition notFoundErrorResponse := H_error "not found".
Definition alreadyExistsErrorResponse := H_error "file already exists".

(** The effect of [c.JSON(status, body)]. *)
Record Response := JSON {
  Status : Z;
  body : Body;
}.

(** ** [path.Join] of the Go standard library

    [Join] drops empty elements, joins the rest with a slash and cleans
    the result ([path.Clean]): empty and [.] elements vanish, [..] removes
    the element before it, and the empty path becomes [.]. *)
Module pathutil.

Fixpoint splitSlash (s : string) : list string :=
  match s with
  | EmptyString => [EmptyString]
  | String c rest =>
      if Ascii.eqb c "/"%char then EmptyString :: splitSlash rest
      else match splitSlash rest with
           | [] => [String c EmptyString]
           | x :: xs => String c x :: xs
           end
  end.

Fixpoint cleanElems (rooted : bool) (elems stack : list string) : list string :=
  match elems with
  | [] => rev stack
  | e :: rest =>
      if String.eqb e "" || String.eqb e "." then cleanElems rooted rest stack
      else if String.eqb e ".." then
        match stack with
        | top :: below =>
            if String.eqb top ".." then cleanElems rooted rest (e :: stack)
            else cleanElems rooted rest below
        | [] =>
            if rooted then cleanElems rooted rest stack
            else cleanElems rooted rest (e :: stack)
        end
      else cleanElems rooted rest (e :: stack)
  end.

Fixpoint joinSlash (elems : list string) : string :=
  match elems with
  | [] => ""
  | [e] => e
  | e :: rest => e +:+ "/" +:+ joinSlash rest
  end.

Definition Clean (path : string) : string :=
  let rooted := match path with
                | String c _ => Ascii.eqb c "/"%char
                | EmptyString => false
                end in
  let out := (if rooted then "/" else "")
             +:+ joinSlash (cleanElems rooted (splitSlash path) []) in
  if String.eqb out "" then "." else out.

Definition Join (a b : string) : string :=
  if String.eqb a "" then
    if String.eqb b "" then "" else Clean b
  else if String.eqb b "" then Clean a
  else Clean (a +:+ "/" +:+ b).

End pathutil.

(** ** The storage backend

    [storage.Backend] is an interface; a backend is any state type with
    the three operations.  Each may fail and each may change the state. *)
Class StorageBackend (B : Type) := {
  GetObject : string → B → result Object * B;
  PutObject : string → bytes → B → option error * B;
  DeleteObject : string → B → option error * B;
}.

(** A storage call, as recorded in the log. *)
Inductive StoreOp :=
| OpGet (key : string)
| OpPut (key : string) (content : bytes)
| OpDelete (key : string).

Definition is_probe (op : StoreOp) : bool :=
  match op with OpGet _ => true | _ => false end.

Definition is_put (op : StoreOp) : bool :=
  match op with OpPut _ _ => true | _ => false end.

Definition put_key (op : StoreOp) : option string :=
  match op with OpPut k _ => Some k | _ => None end.

(** The keys written by a list of storage calls. *)
Definition written_keys (ops : list StoreOp) : list string := omap put_key ops.

(** ** Requests *)

(** A [multipart.File]: reading it to the end ([io.Copy]) gives its
    bytes or fails. *)
Record File := { file_read : result bytes }.

Record FileHeader := { Filename : string }.

(** The three values of [req.FormFile(field)]; a nil pointer is [None]. *)
Record FormFileResult := {
  ff_file : option File;
  ff_header : option FileHeader;
  ff_err : option error;
}.

Record Request := { FormFile : string → FormFileResult }.

(** [gin.Context], as far as the handlers read it. *)
Record Context := {
  GetString : string → string;
  Param : string → string;
  GetRawData : result bytes;
  ctx_Request : Request;
}.

(** ** Server configuration *)
Record MultiTenantServer := {
  AllowOverwrite : bool;
  ChartPostFormFieldName : string;
  ProvPostFormFieldName : string;
}.

(** [packageOrProvenanceFile] of the source. *)
Record packageOrProvenanceFile := {
  filename : string;
  content : bytes;
  field : string;
}.

Definition filenameFromContentFn := bytes → result string.

Record fieldFuncPair := {
  ffp_field : string;
  ffp_fn : filenameFromContentFn;
}.

(** ** The handler monad *)

(** Backend state and the storage calls issued so far, oldest first. *)
Record World (B : Type) := {
  backend : B;
  trace : list StoreOp;
}.
Arguments backend {B} w.
Arguments trace {B} w.

Definition M (B A : Type) : Type := World B → A * World B.

Definition ret {B A} (a : A) : M B A := λ w, (a, w).

Definition bind {B A C} (m : M B A) (k : A → M B C) : M B C :=
  λ w, let '(a, w') := m w in k a w'.

Notation "'do' x <- c ; k" := (bind c (λ x, k))
  (at level 10, x name, c at level 100, k at level 200).
Notation "'do' ' p <- c ; k" := (bind c (λ x, match x with p => k end))
  (at level 10, p pattern, c at level 100, k at level 200).
Notation "'exec' c ; k" := (bind c (λ _, k))
  (at level 10, c at level 100, k at level 200).

(** A call starts with an empty log. *)
Definition start {B} (b : B) : World B := {| backend := b; trace := [] |}.

(** ** Collaborators outside this file *)

(** Package [cm_repo]: filenames derived from content and from a
    (name, version) identity. *)
Class ArtifactNamer := {
  ChartPackageFilenameFromContent : filenameFromContentFn;
  ProvenanceFilenameFromContent : filenameFromContentFn;
  ChartPackageFilenameFromNameVersion : string → string → string;
  ProvenanceFilenameFromNameVersion : string → string → string;
}.

(** The per-tenant index: [server.getIndexFile] and the resolver
    [indexFile.Get(name, version)] of the index it returns. *)
Class TenantIndex (B : Type) := {
  Index : Type;
  getIndexFile : string → M B (Index + HTTPError);
  IndexFile_Get : Index → string → string → result ChartVersion;
}.

(** ** Handlers *)
Section Handlers.

Context {B : Type} {store : StorageBackend B} {namer : ArtifactNamer}
        {index : TenantIndex B}.

Definition StorageBackend_GetObject (key : string) : M B (result Object) :=
  λ w, let '(r, b) := GetObject key (backend w) in
       (r, {| backend := b; trace := trace w ++ [OpGet key] |}).

Definition StorageBackend_PutObject (key : string) (c : bytes) : M B (option error) :=
  λ w, let '(r, b) := PutObject key c (backend w) in
       (r, {| backend := b; trace := trace w ++ [OpPut key c] |}).

Definition StorageBackend_DeleteObject (key : string) : M B (option error) :=
  λ w, let '(r, b) := DeleteObject key (backend w) in
       (r, {| backend := b; trace := trace w ++ [OpDelete key] |}).

Definition getChartVersionRequestHandler (server : MultiTenantServer)
    (c : Context) : M B Response :=
  let repo := GetString c "repo" in
  let name := Param c "name" in
  let version := Param c "version" in
  let version := if String.eqb version "latest" then "" else version in
  do r <- getIndexFile repo;
  match r with
  | inr err => ret (JSON (HTTPError_Status err) (H_error (HTTPError_Message err)))
  | inl indexFile =>
      match IndexFile_Get indexFile name version with
      | Err _ => ret (JSON 404 (H_error "not found"))
      | Ok chartVersion => ret (JSON 200 (JSON_chartVersion chartVersion))
      end
  end.

Definition deleteChartVersionRequestHandler (server : MultiTenantServer)
    (c : Context) : M B Response :=
  let repo := GetString c "repo" in
  let name := Param c "name" in
  let version := Param c "version" in
  let filename := pathutil.Join repo (ChartPackageFilenameFromNameVersion name version) in
  do err <- StorageBackend_DeleteObject filename;
  match err with
  | Some _ => ret (JSON 404 (H_error "not found"))
  | None =>
      let provFilename := pathutil.Join repo (ProvenanceFilenameFromNameVersion name version) in
      exec StorageBackend_DeleteObject provFilename; (* error ignored *)
      ret (JSON 200 H_deleted)
  end.

(** Returns the candidate (nil when the field is absent), a status and
    an error. *)
Definition extractAndValidateFormFile (server : MultiTenantServer)
    (req : Request) (field : string) (fnFromContent : filenameFromContentFn)
    : M B (option packageOrProvenanceFile * Z * option error) :=
  let r := FormFile req field in     (* the error of FormFile is dropped *)
  match ff_file r, ff_header r with
  | Some file, Some header =>
      match file_read file with
      | Err err => ret (None, 500, Some err)              (* IO error *)
      | Ok content =>
          match fnFromContent content with
          | Err err => ret (None, 400, Some err)          (* validation error *)
          | Ok filename =>
              let ppf := {| filename := filename; content := content; field := field |} in
              if negb (AllowOverwrite server) then
                do r <- StorageBackend_GetObject filename;
                match r with
                | Ok _ => ret (None, 409, Some (filename +:+ " already exists"))
                | Err _ => ret (Some ppf, 200, None)
                end
              else ret (Some ppf, 200, None)
          end
      end
  | _, _ => ret (None, 200, None)                         (* field is not present *)
  end.

(** The first loop of [postPackageAndProvenanceRequestHandler]: the
    fields in order, stopping at the first error. *)
Fixpoint extractLoop (server : MultiTenantServer) (req : Request)
    (ffp : list fieldFuncPair) (ppFiles : list packageOrProvenanceFile)
    : M B (Response + list packageOrProvenanceFile) :=
  match ffp with
  | [] => ret (inr ppFiles)
  | ff :: rest =>
      do '(ppf, status, err) <-
        extractAndValidateFormFile server req (ffp_field ff) (ffp_fn ff);
      match err with
      | Some e => ret (inl (JSON status (H_error e)))
      | None =>
          extractLoop server req rest
            (match ppf with Some p => ppFiles ++ [p] | None => ppFiles end)
      end
  end.

(** The clean-up loop: one delete per stored file, errors ignored. *)
Fixpoint cleanUp (storedFiles : list packageOrProvenanceFile) : M B unit :=
  match storedFiles with
  | [] => ret tt
  | ppf :: rest =>
      exec StorageBackend_DeleteObject (filename ppf);
      cleanUp rest
  end.

(** The second loop: one write per candidate, in order. *)
Fixpoint storeLoop (repo : string) (ppFiles storedFiles : list packageOrProvenanceFile)
    : M B Response :=
  match ppFiles with
  | [] => ret (JSON 201 objectSavedResponse)
  | ppf :: rest =>
      do err <- StorageBackend_PutObject (pathutil.Join repo (filename ppf)) (content ppf);
      match err with
      | None => storeLoop repo rest (storedFiles ++ [ppf])
      | Some e =>
          exec cleanUp storedFiles;
          ret (JSON 500 (H_error e))
      end
  end.

Definition postPackageAndProvenanceRequestHandler (server : MultiTenantServer)
    (c : Context) : M B Response :=
  let repo := GetString c "repo" in
  let ffp := [ {| ffp_field := ChartPostFormFieldName server;
                  ffp_fn := ChartPackageFilenameFromContent |};
               {| ffp_field := ProvPostFormFieldName server;
                  ffp_fn := ProvenanceFilenameFromContent |} ] in
  do r <- extractLoop server (ctx_Request c) ffp [];
  match r with
  | inl resp => ret resp
  | inr ppFiles =>
      if (length ppFiles =? 0)%nat then
        ret (JSON 400 (H_error
               ("no package or provenance file found in form fields "
                +:+ ChartPostFormFieldName server +:+ " and "
                +:+ ProvPostFormFieldName server)))
      else storeLoop repo ppFiles []
  end.

Definition postPackageRequestHandler (server : MultiTenantServer)
    (c : Context) : M B Response :=
  let repo := GetString c "repo" in
  match GetRawData c with
  | Err err => ret (JSON 500 (H_error err))
  | Ok content =>
      match ChartPackageFilenameFromContent content with
      | Err err => ret (JSON 500 (H_error err))
      | Ok filename =>
          let store :=
            do err <- StorageBackend_PutObject (pathutil.Join repo filename) content;
            match err with
            | Some e => ret (JSON 500 (H_error e))
            | None => ret (JSON 201 objectSavedResponse)
            end in
          if negb (AllowOverwrite server) then
            do r <- StorageBackend_GetObject (pathutil.Join repo filename);
            match r with
            | Ok _ => ret (JSON 409 alreadyExistsErrorResponse)
            | Err _ => store
            end
          else store
      end
  end.

Definition postProvenanceFileRequestHandler (server : MultiTenantServer)
    (c : Context) : M B Response :=
  let repo := GetString c "repo" in
  match GetRawData c with
  | Err err => ret (JSON 500 (H_error err))
  | Ok content =>
      match ProvenanceFilenameFromContent content with
      | Err err => ret (JSON 500 (H_error err))
      | Ok filename =>
          let store :=
            do err <- StorageBackend_PutObject filename content;
            match err with
            | Some e => ret (JSON 500 (H_error e))
            | None => ret (JSON 201 objectSavedResponse)
            end in
          if negb (AllowOverwrite server) then
            do r <- StorageBackend_GetObject (pathutil.Join repo filename);
            match r with
            | Ok _ => ret (JSON 409 alreadyExistsErrorResponse)
            | Err _ => store
            end
          else store
      end
  end.

End Handlers.

(** ** Outcome classes

    The statuses the handlers send, by the class of outcome they stand
    for: 400 is a validation error (bad request), 404 not found, 409 a
    conflict, 500 an I/O or backend failure. *)
Inductive ErrorKind :=
| ValidationError
| NotFoundError
| ConflictError
| BackendError.

Definition error_class (status : Z) : option ErrorKind :=
  if Z.eqb status 400 then Some ValidationError
  else if Z.eqb status 404 then Some NotFoundError
  else if Z.eqb status 409 then Some ConflictError
  else if Z.eqb status 500 then Some BackendError
  else None.

(** [msg] names [s]: [s] occurs in it. *)
Definition mentions (msg s : string) : Prop :=
  ∃ pre post, msg = pre +:+ s +:+ post.

(** The field is not present in the form, as
    [extractAndValidateFormFile] decides it. *)
Definition field_absent (req : Request) (field : string) : Prop :=
  ff_file (FormFile req field) = None ∨ ff_header (FormFile req field) = None.

(** The message of the response when no candidate survived. *)
Definition noFileFoundMessage (server : MultiTenantServer) : string :=
  "no package or provenance file found in form fields "
  +:+ ChartPostFormFieldName server +:+ " and " +:+ ProvPostFormFieldName server.

(** ** Backends that behave like a map

    [contents] reads a backend state as a finite map from keys to
    objects: a lookup succeeds exactly on the keys present and changes
    nothing, a successful write adds or replaces one object, a successful
    delete removes one. *)
Class LawfulBackend (B : Type) `{StorageBackend B} := {
  contents : B → gmap string bytes;
  GetObject_found : ∀ k b,
    (∃ o, (GetObject k b).1 = Ok o) ↔ is_Some (contents b !! k);
  GetObject_contents : ∀ k b, contents (GetObject k b).2 = contents b;
  PutObject_contents : ∀ k v b b',
    PutObject k v b = (None, b') → contents b' = <[k:=v]> (contents b);
  DeleteObject_contents : ∀ k b b',
    DeleteObject k b = (None, b') → contents b' = delete k (contents b);
}.

(** ** An in-memory backend with injected write failures

    [objects] is the store; a write to a key listed in [failing_puts]
    fails and stores nothing.  Deleting or reading a missing key fails. *)
Record MemStore := {
  objects : gmap string bytes;
  failing_puts : list string;
}.

Definition MemStore_GetObject (k : string) (st : MemStore) : result Object * MemStore :=
  match objects st !! k with
  | Some c => (Ok {| Path := k; Content := c |}, st)
  | None => (Err "object not found", st)
  end.

Definition MemStore_PutObject (k : string) (c : bytes) (st : MemStore)
    : option error * MemStore :=
  if bool_decide (k ∈ failing_puts st) then (Some "write failed", st)
  else (None, {| objects := <[k:=c]> (objects st); failing_puts := failing_puts st |}).

Definition MemStore_DeleteObject (k : string) (st : MemStore) : option error * MemStore :=
  match objects st !! k with
  | Some _ => (None, {| objects := delete k (objects st); failing_puts := failing_puts st |})
  | None => (Some "object not found", st)
  end.

#[export] Instance MemStore_backend : StorageBackend MemStore := {
  GetObject := MemStore_GetObject;
  PutObject := MemStore_PutObject;
  DeleteObject := MemStore_DeleteObject;
}.

(** ** A sample namer and index for worked examples

    Content is accepted when it is not empty; every accepted package is
    chart [mychart] at version [0.1.0].  Filenames from an identity are
    [name-version.tgz] and [name-version.tgz.prov]. *)
#[export] Instance sampleNamer : ArtifactNamer := {
  ChartPackageFilenameFromContent c :=
    match c with [] => Err "no chart metadata found" | _ => Ok "mychart-0.1.0.tgz" end;
  ProvenanceFilenameFromContent c :=
    match c with [] => Err "no provenance data found" | _ => Ok "mychart-0.1.0.tgz.prov" end;
  ChartPackageFilenameFromNameVersion name version := name +:+ "-" +:+ version +:+ ".tgz";
  ProvenanceFilenameFromNameVersion name version := name +:+ "-" +:+ version +:+ ".tgz.prov";
}.

(** An index is a list of records, highest version first; the empty
    version asks for the first record of the chart. *)
Definition sample_Get (idx : list ChartVersion) (name version : string)
    : result ChartVersion :=
  match List.find (λ cv, String.eqb (cv_Name cv) name
                         && (String.eqb version "" || String.eqb (cv_Version cv) version)) idx with
  | Some cv => Ok cv
  | None => Err "no chart version found"
  end.

Definition mychart_0_2_0 : ChartVersion :=
  {| cv_Name := "mychart"; cv_Version := "0.2.0"; cv_Digest := "d2" |}.
Definition mychart_0_1_0 : ChartVersion :=
  {| cv_Name := "mychart"; cv_Version := "0.1.0"; cv_Digest := "d1" |}.

#[export] Instance sampleIndex : TenantIndex MemStore := {
  Index := list ChartVersion;
  getIndexFile repo :=
    if String.eqb repo "myrepo" then ret (inl [mychart_0_2_0; mychart_0_1_0])
    else ret (inr {| HTTPError_Status := 500; HTTPError_Message := "index unavailable" |});
  IndexFile_Get := sample_Get;
}.

(** Sample requests. *)
Definition sampleServer : MultiTenantServer :=
  {| AllowOverwrite := false;
     ChartPostFormFieldName := "chart";
     ProvPostFormFieldName := "prov" |}.

Definition pkgBytes : bytes := [Byte.x1f; Byte.x8b].
Definition provBytes : bytes := [Byte.x2d].

Definition missingFile : FormFileResult :=
  {| ff_file := None; ff_header := None;
     ff_err := Some "http: no such file" |}.

Definition presentFile (name : string) (c : bytes) : FormFileResult :=
  {| ff_file := Some {| file_read := Ok c |};
     ff_header := Some {| Filename := name |};
     ff_err := None |}.

Definition sampleContext (repo : string) (raw : result bytes)
    (form : string → FormFileResult) (version : string) : Context :=
  {| GetString k := if String.eqb k "repo" then repo else "";
     Param k := if String.eqb k "name" then "mychart"
                else if String.eqb k "version" then version else "";
     GetRawData := raw;
     ctx_Request := {| FormFile := form |} |}.

(** A form with both files. *)
Definition bothFiles (f : string) : FormFileResult :=
  if String.eqb f "chart" then presentFile "mychart-0.1.0.tgz" pkgBytes
  else if String.eqb f "prov" then presentFile "mychart-0.1.0.tgz.prov" provBytes
  else missingFile.

(** A form with the package only. *)
Definition chartOnly (f : string) : FormFileResult :=
  if String.eqb f "chart" then presentFile "mychart-0.1.0.tgz" pkgBytes
  else missingFile.

(** A form that cannot be parsed: every field fails. *)
Definition unparsableForm (f : string) : FormFileResult :=
  {| ff_file := None; ff_header := None;
     ff_err := Some "multipart: NextPart: EOF" |}.

Definition noForm (f : string) : FormFileResult := missingFile.

(** A form whose package field holds an empty file, which the sample
    namer rejects. *)
Definition emptyChartForm (f : string) : FormFileResult :=
  if String.eqb f "chart" then presentFile "mychart-0.1.0.tgz" []
  else missingFile.

(** A form whose files cannot be opened: [FormFile] fails, yet returns
    the header and a file whose reads fail. *)
Definition openFailedForm (f : string) : FormFileResult :=
  {| ff_file := Some {| file_read := Err "invalid argument" |};
     ff_header := Some {| Filename := "mychart-0.1.0.tgz" |};
     ff_err := Some "open /tmp/multipart-1: no such file or directory" |}.

Definition emptyStore : MemStore := {| objects := ∅; failing_puts := [] |}.

Definition storeWith (key : string) (c : bytes) : MemStore :=
  {| objects := {[ key := c ]}; failing_puts := [] |}.

(** The in-memory backend behaves like a map. *)
#[export, refine] Instance MemStore_lawful : LawfulBackend MemStore :=
  {| contents := objects |}.
Proof.
  - intros k b. simpl. unfold MemStore_GetObject.
    destruct (objects b !! k) as [v|]; simpl; split.
    + by eexists.
    + by eexists.
    + by intros [o ?].
    + by intros [v ?].
  - intros k b. simpl. unfold MemStore_GetObject.
    by destruct (objects b !! k).
  - intros k v b b'. simpl. unfold MemStore_PutObject.
    case_bool_decide; by intros [= <-].
  - intros k b b'. simpl. unfold MemStore_DeleteObject.
    destruct (objects b !! k); by intros [= <-].
Defined.

(** ** The dispatcher and the vocabulary of its properties *)

(** [postRequestHandler]; [contentType] is the value of
    [c.ContentType()]. *)
Definition postRequestHandler {B : Type} {store : StorageBackend B}
    {namer : ArtifactNamer} (server : MultiTenantServer) (contentType : string)
    (c : Context) : M B Response :=
  if String.eqb contentType "multipart/form-data"
  then postPackageAndProvenanceRequestHandler server c
  else postPackageRequestHandler server c.

(** The answer after the last write of the raw handlers: 500 with the
    write's error, or 201. *)
Definition saved_or_failed (r : option error) : Response :=
  match r with
  | Some e => JSON 500 (H_error e)
  | None => JSON 201 objectSavedResponse
  end.

(** The write the second loop issues for a candidate, and the delete
    the clean-up issues for a stored file. *)
Definition put_of (repo : string) (p : packageOrProvenanceFile) : StoreOp :=
  OpPut (pathutil.Join repo (filename p)) (content p).

Definition cleanup_of (p : packageOrProvenanceFile) : StoreOp :=
  OpDelete (filename p).

(** The map after writing the candidates in order. *)
Definition stored_after (repo : string) (ppFiles : list packageOrProvenanceFile)
    (m : gmap string bytes) : gmap string bytes :=
  foldl (λ m p, <[pathutil.Join repo (filename p) := content p]> m) m ppFiles.

(** The file a form holds in field [fld], as a candidate: the field is
    present, its file is readable and [fn] names its content.  No store
    is consulted. *)
Definition candidate (req : Request) (fld : string) (fn : filenameFromContentFn)
    : option packageOrProvenanceFile :=
  match ff_file (FormFile req fld), ff_header (FormFile req fld) with
  | Some file, Some _ =>
      match file_read file with
      | Ok bs =>
          match fn bs with
          | Ok name => Some {| filename := name; content := bs; field := fld |}
          | Err _ => None
          end
      | Err _ => None
      end
  | _, _ => None
  end.

(** The candidates of a list of fields, in the order of the fields. *)
Definition candidates (req : Request) (ffp : list fieldFuncPair)
    : list packageOrProvenanceFile :=
  omap (λ ff, candidate req (ffp_field ff) (ffp_fn ff)) ffp.

(** The two configured fields of the form handler, package first. *)
Definition formFields {namer : ArtifactNamer} (server : MultiTenantServer)
    : list fieldFuncPair :=
  [ {| ffp_field := ChartPostFormFieldName server;
       ffp_fn := ChartPackageFilenameFromContent |};
    {| ffp_field := ProvPostFormFieldName server;
       ffp_fn := ProvenanceFilenameFromContent |} ].

(** The probes the extraction issues for candidates: none when overwrite
    is allowed, else one per candidate at its bare filename. *)
Definition probes_of (server : MultiTenantServer)
    (ppFiles : list packageOrProvenanceFile) : list StoreOp :=
  if AllowOverwrite server then [] else map (λ p, OpGet (filename p)) ppFiles.

(** The backend after writing the files one after the other at their
    tenant-scoped keys, if every write succeeds. *)
Fixpoint put_each {B : Type} {store : StorageBackend B} (repo : string)
    (ppFiles : list packageOrProvenanceFile) (b : B) : option B :=
  match ppFiles with
  | [] => Some b
  | p :: rest =>
      match PutObject (pathutil.Join repo (filename p)) (content p) b with
      | (None, b') => put_each repo rest b'
      | (Some _, _) => None
      end
  end.

(** The backend after one delete per file at its bare filename, whatever
    the deletes return. *)
Fixpoint delete_each {B : Type} {store : StorageBackend B}
    (files : list packageOrProvenanceFile) (b : B) : B :=
  match files with
  | [] => b
  | p :: rest => delete_each rest (DeleteObject (filename p) b).2
  end.

(** Backends whose failures are harmless and whose deletes fail only on
    missing keys: a failed write or delete leaves the contents as they
    were, and a delete succeeds exactly on the keys present. *)
Class StrictBackend (B : Type) `{LawfulBackend B} := {
  PutObject_failed : ∀ k v b e b',
    PutObject k v b = (Some e, b') → contents b' = contents b;
  DeleteObject_failed : ∀ k b e b',
    DeleteObject k b = (Some e, b') → contents b' = contents b;
  DeleteObject_found : ∀ k b,
    (DeleteObject k b).1 = None ↔ is_Some (contents b !! k);
}.

#[export] Instance MemStore_strict : StrictBackend MemStore.
Proof.
  split.
  - intros k v b e b'. simpl. unfold MemStore_PutObject.
    case_bool_decide; by intros [= <- <-].
  - intros k b e b'. simpl. unfold MemStore_DeleteObject.
    destruct (objects b !! k); by intros [= <- <-].
  - intros k b. simpl. unfold MemStore_DeleteObject.
    destruct (objects b !! k) as [v|]; simpl; split; done.
Defined.

(** More sample data: a server that allows overwrite, a second package
    body of the same chart version, and the two candidates of the form
    [bothFiles]. *)
Definition overwriteServer : MultiTenantServer :=
  {| AllowOverwrite := true;
     ChartPostFormFieldName := "chart";
     ProvPostFormFieldName := "prov" |}.

Definition pkgBytes2 : bytes := [Byte.x1f; Byte.x8b; Byte.x00].

Definition pkgFile : packageOrProvenanceFile :=
  {| filename := "mychart-0.1.0.tgz"; content := pkgBytes; field := "chart" |}.

Definition provFile : packageOrProvenanceFile :=
  {| filename := "mychart-0.1.0.tgz.prov"; content := provBytes; field := "prov" |}.

(** * Properties of the handlers *)

Lemma string_app_assoc (s1 s2 s3 : string) :
  (s1 +:+ s2) +:+ s3 = s1 +:+ (s2 +:+ s3).
Proof.
  induction s1 as [|a s1 IH]; [done|].
  change (String a ((s1 +:+ s2) +:+ s3) = String a (s1 +:+ (s2 +:+ s3))).
  by rewrite IH.
Qed.

Lemma string_app_empty_r (s : string) : s +:+ "" = s.
Proof.
  induction s as [|a s IH]; [done|].
  change (String a (s +:+ "") = String a s). by rewrite IH.
Qed.

Section Properties.

Context {B : Type} {store : StorageBackend B} {namer : ArtifactNamer}
        {index : TenantIndex B}.

Implicit Types (w : World B) (b : B) (server : MultiTenantServer) (c : Context).

(** One step of each storage call. *)
Lemma DeleteObject_step key w r b :
  DeleteObject key (backend w) = (r, b) →
  StorageBackend_DeleteObject key w
  = (r, {| backend := b; trace := trace w ++ [OpDelete key] |}).
Proof. intros E. unfold StorageBackend_DeleteObject. by rewrite E. Qed.

Lemma PutObject_step key v w r b :
  PutObject key v (backend w) = (r, b) →
  StorageBackend_PutObject key v w
  = (r, {| backend := b; trace := trace w ++ [OpPut key v] |}).
Proof. intros E. unfold StorageBackend_PutObject. by rewrite E. Qed.

Lemma GetObject_step key w :
  StorageBackend_GetObject key w
  = ((GetObject key (backend w)).1,
     {| backend := (GetObject key (backend w)).2; trace := trace w ++ [OpGet key] |}).
Proof. unfold StorageBackend_GetObject. by destruct (GetObject key (backend w)). Qed.

(** Extraction issues at most one storage call, a probe. *)
Lemma extract_only_probes server req field fn w r w' :
  extractAndValidateFormFile server req field fn w = (r, w') →
  ∃ probes, trace w' = trace w ++ probes
            ∧ Forall (λ op, is_probe op = true) probes.
Proof.
  unfold extractAndValidateFormFile.
  destruct (ff_file (FormFile req field)) as [file|],
           (ff_header (FormFile req field)) as [header|];
    try (intros [= <- <-]; exists []; by rewrite app_nil_r).
  destruct (file_read file) as [content|e];
    [|intros [= <- <-]; exists []; by rewrite app_nil_r].
  destruct (fn content) as [name|e];
    [|intros [= <- <-]; exists []; by rewrite app_nil_r].
  destruct (negb (AllowOverwrite server));
    [|intros [= <- <-]; exists []; by rewrite app_nil_r].
  unfold bind. rewrite GetObject_step.
  destruct (GetObject name (backend w)).1;
    intros [= <- <-]; exists [OpGet name]; split; by repeat constructor.
Qed.

(** An absent field gives no candidate, no error and no storage call. *)
Lemma extract_absent server req field fn w :
  field_absent req field →
  extractAndValidateFormFile server req field fn w = ((None, 200, None), w).
Proof.
  unfold field_absent, extractAndValidateFormFile.
  intros [-> | ->]; [done|]. by destruct (ff_file _).
Qed.

(** With no candidate from either field the handler answers 400 and
    touches neither the backend nor the log. *)
Lemma no_candidates_response server c w :
  field_absent (ctx_Request c) (ChartPostFormFieldName server) →
  field_absent (ctx_Request c) (ProvPostFormFieldName server) →
  postPackageAndProvenanceRequestHandler server c w
  = (JSON 400 (H_error (noFileFoundMessage server)), w).
Proof.
  intros Hc Hp. unfold postPackageAndProvenanceRequestHandler, bind. simpl.
  unfold bind. rewrite (extract_absent _ _ _ _ _ Hc).
  by rewrite (extract_absent _ _ _ _ _ Hp).
Qed.

(** C4: deleting a (tenant, name, version).  If the delete of the
    tenant-scoped package object fails, the outcome is 404 not found and
    the provenance delete is never issued; if it succeeds, the outcome is
    200 deleted whatever the provenance delete returns. *)
Theorem delete_outcome_follows_package_delete server c b :
  let repo := GetString c "repo" in
  let pkg := pathutil.Join repo
               (ChartPackageFilenameFromNameVersion (Param c "name") (Param c "version")) in
  let prov := pathutil.Join repo
                (ProvenanceFilenameFromNameVersion (Param c "name") (Param c "version")) in
  (∀ e b1, DeleteObject pkg b = (Some e, b1) →
     deleteChartVersionRequestHandler server c (start b)
     = (JSON 404 (H_error "not found"),
        {| backend := b1; trace := [OpDelete pkg] |}))
  ∧ (∀ b1 r b2, DeleteObject pkg b = (None, b1) →
       DeleteObject prov b1 = (r, b2) →
       deleteChartVersionRequestHandler server c (start b)
       = (JSON 200 H_deleted,
          {| backend := b2; trace := [OpDelete pkg; OpDelete prov] |})).
Proof.
  intros repo pkg prov. split.
  - intros e b1 E. unfold deleteChartVersionRequestHandler, bind.
    fold repo pkg. by rewrite (DeleteObject_step pkg (start b) _ _ E).
  - intros b1 r b2 E1 E2. unfold deleteChartVersionRequestHandler, bind.
    fold repo pkg prov. rewrite (DeleteObject_step pkg (start b) _ _ E1).
    by rewrite (DeleteObject_step prov (Build_World B b1 _) r b2 E2).
Qed.

(** C5: when the extraction of either form field fails (status 500, 400
    or 409), the handler answers with that status and error, and the
    only storage calls of the whole request are probes: nothing is
    written or deleted, also not the candidate of the earlier field. *)
Theorem failed_extraction_writes_nothing server c w status e :
  let req := ctx_Request c in
  let chart := extractAndValidateFormFile server req
                 (ChartPostFormFieldName server) ChartPackageFilenameFromContent in
  let prov := extractAndValidateFormFile server req
                (ProvPostFormFieldName server) ProvenanceFilenameFromContent in
  (∃ p w1, chart w = ((p, status, Some e), w1))
  ∨ (∃ p1 s1 w1 p w2, chart w = ((p1, s1, None), w1)
                       ∧ prov w1 = ((p, status, Some e), w2)) →
  ∃ w' probes,
    postPackageAndProvenanceRequestHandler server c w = (JSON status (H_error e), w')
    ∧ trace w' = trace w ++ probes
    ∧ Forall (λ op, is_probe op = true) probes.
Proof.
  intros req chart prov [(p & w1 & E) | (p1 & s1 & w1 & p & w2 & E1 & E2)].
  - destruct (extract_only_probes _ _ _ _ _ _ _ E) as (probes & Ht & Hp).
    exists w1, probes. split; [|done].
    unfold postPackageAndProvenanceRequestHandler, bind. simpl. unfold bind.
    fold req. fold chart. by rewrite E.
  - destruct (extract_only_probes _ _ _ _ _ _ _ E1) as (probes1 & Ht1 & Hp1).
    destruct (extract_only_probes _ _ _ _ _ _ _ E2) as (probes2 & Ht2 & Hp2).
    exists w2, (probes1 ++ probes2). split; [|split].
    + unfold postPackageAndProvenanceRequestHandler, bind. simpl. unfold bind.
      fold req. fold chart. rewrite E1. fold prov. by rewrite E2.
    + by rewrite Ht2, Ht1, app_assoc.
    + by apply Forall_app.
Qed.

(** C6: when both configured form fields are absent, the handler answers
    400, a validation error, with a message that names both field names,
    and issues no storage call: backend and log are as before. *)
Theorem both_fields_absent_is_validation_error server c w :
  field_absent (ctx_Request c) (ChartPostFormFieldName server) →
  field_absent (ctx_Request c) (ProvPostFormFieldName server) →
  ∃ msg,
    postPackageAndProvenanceRequestHandler server c w = (JSON 400 (H_error msg), w)
    ∧ error_class 400 = Some ValidationError
    ∧ mentions msg (ChartPostFormFieldName server)
    ∧ mentions msg (ProvPostFormFieldName server).
Proof.
  intros Hc Hp. exists (noFileFoundMessage server).
  split; [by apply no_candidates_response|]. split; [done|].
  unfold noFileFoundMessage, mentions. split.
  - by eexists _, _.
  - exists ("no package or provenance file found in form fields "
            +:+ ChartPostFormFieldName server +:+ " and "), "".
    by rewrite string_app_empty_r, !string_app_assoc.
Qed.

(** C10 (amended): the error of [FormFile] is never read.  Requests
    that differ only in that error are treated alike.  A failure that
    returns no file or no header, as for a form that cannot be parsed or
    a missing field, returns success with no candidate and no storage
    call, like an absent field; and a request for which every field
    fails that way is answered with the 400 of the zero-candidates case,
    not with the failure.  A failure that comes with a file and a header
    is processed like a present field. *)
Theorem form_file_error_is_discarded server :
  (∀ req1 req2 field fn w,
     ff_file (FormFile req1 field) = ff_file (FormFile req2 field) →
     ff_header (FormFile req1 field) = ff_header (FormFile req2 field) →
     extractAndValidateFormFile server req1 field fn w
     = extractAndValidateFormFile server req2 field fn w)
  ∧ (∀ req field fn w e,
       ff_err (FormFile req field) = Some e →
       ff_file (FormFile req field) = None ∨ ff_header (FormFile req field) = None →
       extractAndValidateFormFile server req field fn w = ((None, 200, None), w))
  ∧ (∀ c w,
       (∀ field, ∃ e,
          ff_err (FormFile (ctx_Request c) field) = Some e
          ∧ (ff_file (FormFile (ctx_Request c) field) = None
             ∨ ff_header (FormFile (ctx_Request c) field) = None)) →
       postPackageAndProvenanceRequestHandler server c w
       = (JSON 400 (H_error (noFileFoundMessage server)), w))
  ∧ (∀ req field fn w file header e,
       FormFile req field
       = {| ff_file := Some file; ff_header := Some header; ff_err := Some e |} →
       extractAndValidateFormFile server req field fn w
       = extractAndValidateFormFile server
           {| FormFile := λ _, {| ff_file := Some file; ff_header := Some header;
                                  ff_err := None |} |} field fn w).
Proof.
  split; [|split; [|split]].
  - intros req1 req2 field fn w Hf Hh.
    unfold extractAndValidateFormFile. by rewrite Hf, Hh.
  - intros req field fn w e _ Hnil. by apply extract_absent.
  - intros c w Hfail. apply no_candidates_response.
    + by destruct (Hfail (ChartPostFormFieldName server)) as (e & _ & Hnil).
    + by destruct (Hfail (ProvPostFormFieldName server)) as (e & _ & Hnil).
  - intros req field fn w file header e E.
    unfold extractAndValidateFormFile. by rewrite E.
Qed.

(** C8: fetching a chart version with the sentinel "latest".  The
    handler asks the tenant's index for the empty version, which is how
    the index resolver is asked for the highest one; whenever resolving
    that on the index directly gives record [cv], the handler answers
    200 with the same [cv]. *)
Theorem latest_is_resolved_by_the_index server c w idx w' cv :
  Param c "version" = "latest" →
  getIndexFile (GetString c "repo") w = (inl idx, w') →
  IndexFile_Get idx (Param c "name") "" = Ok cv →
  getChartVersionRequestHandler server c w
  = (JSON 200 (JSON_chartVersion cv), w').
Proof.
  intros Hv Hidx Hget. unfold getChartVersionRequestHandler, bind.
  rewrite Hv, Hidx. simpl. by rewrite Hget.
Qed.

(** One run of the provenance handler on accepted content, in full:
    the probe, if any, reads the tenant-scoped key and a hit ends the
    request; the write goes to the bare filename. *)
Lemma provenance_run server c content fn w :
  GetRawData c = Ok content →
  ProvenanceFilenameFromContent content = Ok fn →
  let key := pathutil.Join (GetString c "repo") fn in
  let probed := {| backend := (GetObject key (backend w)).2;
                   trace := trace w ++ [OpGet key] |} in
  (AllowOverwrite server = false →
   ∀ o, (GetObject key (backend w)).1 = Ok o →
     postProvenanceFileRequestHandler server c w
     = (JSON 409 alreadyExistsErrorResponse, probed))
  ∧ (AllowOverwrite server = false →
     ∀ e, (GetObject key (backend w)).1 = Err e →
       postProvenanceFileRequestHandler server c w
       = (saved_or_failed (PutObject fn content (backend probed)).1,
          {| backend := (PutObject fn content (backend probed)).2;
             trace := trace w ++ [OpGet key; OpPut fn content] |}))
  ∧ (AllowOverwrite server = true →
     postProvenanceFileRequestHandler server c w
     = (saved_or_failed (PutObject fn content (backend w)).1,
        {| backend := (PutObject fn content (backend w)).2;
           trace := trace w ++ [OpPut fn content] |})).
Proof.
  intros Hraw Hfn key probed.
  unfold postProvenanceFileRequestHandler. rewrite Hraw, Hfn. fold key.
  split; [|split].
  - intros -> o Ho. simpl. unfold bind. by rewrite GetObject_step, Ho.
  - intros -> e He. simpl. unfold bind at 1. rewrite GetObject_step, He.
    unfold bind, StorageBackend_PutObject. fold probed. simpl.
    destruct (PutObject fn content _) as [[e'|] b']; simpl;
      by rewrite <- app_assoc.
  - intros ->. simpl. unfold bind, StorageBackend_PutObject.
    by destruct (PutObject fn content (backend w)) as [[e'|] b'].
Qed.

(** C9: the raw-body provenance handler, for a body the namer gives
    filename [fn].  With overwrite disabled the conflict probe reads the
    tenant-scoped key [Join(repo, fn)]; a hit is answered 409 and nothing
    is written; after a miss, and always with overwrite allowed, the
    handler issues the write [PutObject(fn, content)] at the bare
    filename and answers 201 or, if that write fails, 500.  The key of
    the write does not depend on the tenant: with overwrite allowed the
    requests of any two tenants with this body are answered alike and
    change the store alike, and with overwrite disabled, whenever both
    probes miss, both requests end with the same write. *)
Theorem provenance_write_is_not_tenant_scoped server c c' content fn w w' :
  GetRawData c = Ok content →
  GetRawData c' = Ok content →
  ProvenanceFilenameFromContent content = Ok fn →
  let key := pathutil.Join (GetString c "repo") fn in
  let key' := pathutil.Join (GetString c' "repo") fn in
  let probed := {| backend := (GetObject key (backend w)).2;
                   trace := trace w ++ [OpGet key] |} in
  (AllowOverwrite server = false →
   ∀ o, (GetObject key (backend w)).1 = Ok o →
     postProvenanceFileRequestHandler server c w
     = (JSON 409 alreadyExistsErrorResponse, probed))
  ∧ (AllowOverwrite server = false →
     ∀ e, (GetObject key (backend w)).1 = Err e →
       postProvenanceFileRequestHandler server c w
       = (saved_or_failed (PutObject fn content (backend probed)).1,
          {| backend := (PutObject fn content (backend probed)).2;
             trace := trace w ++ [OpGet key; OpPut fn content] |}))
  ∧ (AllowOverwrite server = true →
     postProvenanceFileRequestHandler server c w
     = (saved_or_failed (PutObject fn content (backend w)).1,
        {| backend := (PutObject fn content (backend w)).2;
           trace := trace w ++ [OpPut fn content] |}))
  ∧ (AllowOverwrite server = true →
     postProvenanceFileRequestHandler server c' w
     = postProvenanceFileRequestHandler server c w)
  ∧ (AllowOverwrite server = false →
     ∀ e e', (GetObject key (backend w)).1 = Err e →
             (GetObject key' (backend w')).1 = Err e' →
       last (trace (postProvenanceFileRequestHandler server c w).2)
       = Some (OpPut fn content)
       ∧ last (trace (postProvenanceFileRequestHandler server c' w').2)
         = Some (OpPut fn content)).
Proof.
  intros Hraw Hraw' Hfn key key' probed.
  destruct (provenance_run server c content fn w Hraw Hfn) as (Hhit & Hmiss & Hov).
  destruct (provenance_run server c' content fn w' Hraw' Hfn) as (_ & Hmiss' & _).
  destruct (provenance_run server c' content fn w Hraw' Hfn) as (_ & _ & Hov').
  split; [done|]. split; [done|]. split; [done|]. split.
  - intros Htrue. by rewrite (Hov Htrue), (Hov' Htrue).
  - intros Hfalse e e' He He'.
    rewrite (Hmiss Hfalse e He), (Hmiss' Hfalse e' He'). simpl.
    split.
    + by rewrite last_app.
    + by rewrite last_app.
Qed.

(** What the raw package handler does when the namer rejects the body:
    it answers 500 with the namer's message, the status of its I/O and
    backend failures, and issues no storage call. *)
Theorem malformed_package_is_answered_500 server c content e w :
  GetRawData c = Ok content →
  ChartPackageFilenameFromContent content = Err e →
  postPackageRequestHandler server c w = (JSON 500 (H_error e), w)
  ∧ error_class 500 = Some BackendError.
Proof.
  intros Hraw Hfn. split; [|done].
  unfold postPackageRequestHandler. by rewrite Hraw, Hfn.
Qed.

Section Lawful.

Context {lawful : LawfulBackend B}.

Lemma GetObject_absent key b :
  contents b !! key = None → ∃ e, (GetObject key b).1 = Err e.
Proof.
  intros Hnone. destruct (GetObject key b).1 as [o|e] eqn:E; [|by eexists].
  assert (is_Some (contents b !! key)) as [v Hv]
    by (apply GetObject_found; by exists o).
  congruence.
Qed.

(** C7: a package accepted by the namer, overwrite disabled, a store
    that behaves like a map, does not hold the tenant-scoped key and
    accepts the write.  The first single-artifact ingestion answers
    201 saved, the second 409, a conflict, and afterwards the store is
    the initial one plus exactly one object, the content at that key. *)
Theorem second_ingestion_conflicts server c content fn b b1 :
  AllowOverwrite server = false →
  GetRawData c = Ok content →
  ChartPackageFilenameFromContent content = Ok fn →
  let key := pathutil.Join (GetString c "repo") fn in
  contents b !! key = None →
  PutObject key content (GetObject key b).2 = (None, b1) →
  ∃ w1 w2,
    postPackageRequestHandler server c (start b)
    = (JSON 201 objectSavedResponse, w1)
    ∧ postPackageRequestHandler server c (start (backend w1))
      = (JSON 409 alreadyExistsErrorResponse, w2)
    ∧ error_class 409 = Some ConflictError
    ∧ contents (backend w2) = <[key := content]> (contents b)
    ∧ size (contents (backend w2)) = S (size (contents b)).
Proof.
  intros Hov Hraw Hfn key Hnone Hput.
  assert (Hb1 : contents b1 = <[key := content]> (contents b)).
  { rewrite (PutObject_contents _ _ _ _ Hput). by rewrite GetObject_contents. }
  destruct (GetObject_absent key b Hnone) as [e He].
  assert (∃ o, (GetObject key b1).1 = Ok o) as [o Ho].
  { apply GetObject_found. rewrite Hb1, lookup_insert_eq. by eexists. }
  exists {| backend := b1; trace := [OpGet key; OpPut key content] |},
         {| backend := (GetObject key b1).2; trace := [OpGet key] |}.
  split; [|split; [|split; [done|]]].
  - unfold postPackageRequestHandler. rewrite Hraw, Hfn, Hov. simpl.
    fold key. unfold bind at 1. rewrite GetObject_step.
    cbn [start backend trace]. rewrite He. unfold bind.
    by rewrite (PutObject_step key content (Build_World B _ _) _ _ Hput).
  - unfold postPackageRequestHandler. rewrite Hraw, Hfn, Hov. simpl.
    fold key. unfold bind at 1. rewrite GetObject_step.
    cbn [start backend trace]. by rewrite Ho.
  - simpl. rewrite GetObject_contents, Hb1. split; [done|].
    by apply map_size_insert_None.
Qed.

End Lawful.

End Properties.

(** * Worked examples on the in-memory backend *)

(** Deleting a version that is not stored answers 404 after one delete;
    deleting a stored package that has no provenance file answers 200
    although the provenance delete fails. *)
Lemma delete_outcome_example :
  deleteChartVersionRequestHandler sampleServer
    (sampleContext "myrepo" (Err "no body") noForm "0.1.0") (start emptyStore)
  = (JSON 404 (H_error "not found"),
     {| backend := emptyStore; trace := [OpDelete "myrepo/mychart-0.1.0.tgz"] |})
  ∧ deleteChartVersionRequestHandler sampleServer
      (sampleContext "myrepo" (Err "no body") noForm "0.1.0")
      (start (storeWith "myrepo/mychart-0.1.0.tgz" pkgBytes))
    = (JSON 200 H_deleted,
       {| backend := emptyStore;
          trace := [OpDelete "myrepo/mychart-0.1.0.tgz";
                    OpDelete "myrepo/mychart-0.1.0.tgz.prov"] |}).
Proof.
  split.
  - refine (proj1 (delete_outcome_follows_package_delete sampleServer
                     (sampleContext "myrepo" (Err "no body") noForm "0.1.0") emptyStore)
              "object not found" emptyStore _).
    reflexivity.
  - refine (proj2 (delete_outcome_follows_package_delete sampleServer
                     (sampleContext "myrepo" (Err "no body") noForm "0.1.0")
                     (storeWith "myrepo/mychart-0.1.0.tgz" pkgBytes))
              emptyStore (Some "object not found") emptyStore _ _).
    + vm_compute. reflexivity.
    + reflexivity.
Defined.

(** A form with both files where the provenance probe finds an object:
    the package was accepted first, and still nothing is written. *)
Lemma failed_extraction_example :
  ∃ w' probes,
    postPackageAndProvenanceRequestHandler sampleServer
      (sampleContext "myrepo" (Err "no body") bothFiles "")
      (start (storeWith "mychart-0.1.0.tgz.prov" provBytes))
    = (JSON 409 (H_error "mychart-0.1.0.tgz.prov already exists"), w')
    ∧ trace w' = [] ++ probes
    ∧ Forall (λ op, is_probe op = true) probes.
Proof.
  apply (failed_extraction_writes_nothing sampleServer
           (sampleContext "myrepo" (Err "no body") bothFiles "")
           (start (storeWith "mychart-0.1.0.tgz.prov" provBytes))).
  right.
  exists (Some {| filename := "mychart-0.1.0.tgz"; content := pkgBytes; field := "chart" |}),
         200,
         {| backend := storeWith "mychart-0.1.0.tgz.prov" provBytes;
            trace := [OpGet "mychart-0.1.0.tgz"] |},
         None,
         {| backend := storeWith "mychart-0.1.0.tgz.prov" provBytes;
            trace := [OpGet "mychart-0.1.0.tgz"; OpGet "mychart-0.1.0.tgz.prov"] |}.
  split; vm_compute; reflexivity.
Defined.

(** A form with neither field. *)
Lemma both_fields_absent_example :
  ∃ msg,
    postPackageAndProvenanceRequestHandler sampleServer
      (sampleContext "myrepo" (Err "no body") noForm "") (start emptyStore)
    = (JSON 400 (H_error msg), start emptyStore)
    ∧ error_class 400 = Some ValidationError
    ∧ mentions msg "chart"
    ∧ mentions msg "prov".
Proof.
  apply (both_fields_absent_is_validation_error sampleServer
           (sampleContext "myrepo" (Err "no body") noForm "") (start emptyStore));
    left; reflexivity.
Defined.

(** A form that cannot be parsed is answered like an empty one. *)
Lemma unparsable_form_example :
  postPackageAndProvenanceRequestHandler sampleServer
    (sampleContext "myrepo" (Err "no body") unparsableForm "") (start emptyStore)
  = (JSON 400 (H_error
       "no package or provenance file found in form fields chart and prov"),
     start emptyStore).
Proof.
  apply (proj1 (proj2 (proj2 (form_file_error_is_discarded sampleServer)))
           (sampleContext "myrepo" (Err "no body") unparsableForm "")
           (start emptyStore)).
  intros f. exists "multipart: NextPart: EOF". split; [reflexivity|].
  left. reflexivity.
Defined.

(** C10, as stated, fails: a [FormFile] failure that comes with a header
    and a file whose reads fail is not treated as an absent field.  The
    extraction returns the read error with status 500, and the request is
    answered 500, not with the 400 of the zero-candidates case. *)
Lemma failed_open_is_not_treated_as_absent :
  ff_err (openFailedForm "chart")
  = Some "open /tmp/multipart-1: no such file or directory"
  ∧ (extractAndValidateFormFile sampleServer {| FormFile := openFailedForm |}
       "chart" ChartPackageFilenameFromContent (start emptyStore)).1
    = (None, 500, Some "invalid argument")
  ∧ (extractAndValidateFormFile sampleServer {| FormFile := openFailedForm |}
       "chart" ChartPackageFilenameFromContent (start emptyStore)).1
    ≠ (extractAndValidateFormFile sampleServer {| FormFile := noForm |}
         "chart" ChartPackageFilenameFromContent (start emptyStore)).1
  ∧ (postPackageAndProvenanceRequestHandler sampleServer
       (sampleContext "myrepo" (Err "no body") openFailedForm "") (start emptyStore)).1
    = JSON 500 (H_error "invalid argument")
  ∧ (postPackageAndProvenanceRequestHandler sampleServer
       (sampleContext "myrepo" (Err "no body") openFailedForm "") (start emptyStore)).1
    ≠ JSON 400 (H_error (noFileFoundMessage sampleServer)).
Proof.
  vm_compute. repeat split; discriminate.
Qed.

(** The index of [myrepo] lists 0.2.0 before 0.1.0; "latest" gives 0.2.0. *)
Lemma latest_example :
  sample_Get [mychart_0_2_0; mychart_0_1_0] "mychart" "" = Ok mychart_0_2_0
  ∧ getChartVersionRequestHandler sampleServer
      (sampleContext "myrepo" (Err "no body") noForm "latest") (start emptyStore)
    = (JSON 200 (JSON_chartVersion mychart_0_2_0), start emptyStore).
Proof.
  split; [reflexivity|].
  refine (latest_is_resolved_by_the_index (index := sampleIndex) sampleServer
            (sampleContext "myrepo" (Err "no body") noForm "latest")
            (start emptyStore) [mychart_0_2_0; mychart_0_1_0]
            (start emptyStore) mychart_0_2_0 _ _ _);
    reflexivity.
Defined.

(** Tenants [alpha] and [beta] upload the same provenance content with
    overwrite disabled: the probes read [alpha/...] and [beta/...], both
    writes go to the one key [mychart-0.1.0.tgz.prov]. *)
Lemma provenance_two_tenants_example :
  postProvenanceFileRequestHandler sampleServer
    (sampleContext "alpha" (Ok provBytes) noForm "") (start emptyStore)
  = (JSON 201 objectSavedResponse,
     {| backend := storeWith "mychart-0.1.0.tgz.prov" provBytes;
        trace := [OpGet "alpha/mychart-0.1.0.tgz.prov";
                  OpPut "mychart-0.1.0.tgz.prov" provBytes] |})
  ∧ last (trace (postProvenanceFileRequestHandler sampleServer
                   (sampleContext "alpha" (Ok provBytes) noForm "")
                   (start emptyStore)).2)
    = Some (OpPut "mychart-0.1.0.tgz.prov" provBytes)
  ∧ last (trace (postProvenanceFileRequestHandler sampleServer
                   (sampleContext "beta" (Ok provBytes) noForm "")
                   (start emptyStore)).2)
    = Some (OpPut "mychart-0.1.0.tgz.prov" provBytes).
Proof.
  split.
  - refine (proj1 (proj2 (provenance_write_is_not_tenant_scoped sampleServer
                     (sampleContext "alpha" (Ok provBytes) noForm "")
                     (sampleContext "beta" (Ok provBytes) noForm "")
                     provBytes "mychart-0.1.0.tgz.prov" (start emptyStore)
                     (start emptyStore) eq_refl eq_refl eq_refl))
              eq_refl "object not found" eq_refl).
  - refine (proj2 (proj2 (proj2 (proj2
              (provenance_write_is_not_tenant_scoped sampleServer
                 (sampleContext "alpha" (Ok provBytes) noForm "")
                 (sampleContext "beta" (Ok provBytes) noForm "")
                 provBytes "mychart-0.1.0.tgz.prov" (start emptyStore)
                 (start emptyStore) eq_refl eq_refl eq_refl))))
              eq_refl "object not found" "object not found" eq_refl eq_refl).
Defined.

(** An empty body is rejected by the namer and answered 500. *)
Lemma malformed_package_example :
  postPackageRequestHandler sampleServer
    (sampleContext "myrepo" (Ok []) noForm "") (start emptyStore)
  = (JSON 500 (H_error "no chart metadata found"), start emptyStore)
  ∧ error_class 500 = Some BackendError.
Proof.
  apply (malformed_package_is_answered_500 sampleServer
           (sampleContext "myrepo" (Ok []) noForm "") [] "no chart metadata found"
           (start emptyStore));
    reflexivity.
Defined.

(** For the empty body, which the sample namer rejects, the response of
    the raw package handler is not in the validation class. *)
Lemma malformed_package_is_not_validation_error :
  GetRawData (sampleContext "myrepo" (Ok []) noForm "") = Ok []
  ∧ ChartPackageFilenameFromContent [] = Err "no chart metadata found"
  ∧ error_class
      (Status (postPackageRequestHandler sampleServer
                 (sampleContext "myrepo" (Ok []) noForm "") (start emptyStore)).1)
    ≠ Some ValidationError.
Proof. repeat split. vm_compute. discriminate. Qed.

(** Ingesting the sample package twice into the empty store. *)
Lemma second_ingestion_example :
  ∃ w1 w2,
    postPackageRequestHandler sampleServer
      (sampleContext "myrepo" (Ok pkgBytes) noForm "") (start emptyStore)
    = (JSON 201 objectSavedResponse, w1)
    ∧ postPackageRequestHandler sampleServer
        (sampleContext "myrepo" (Ok pkgBytes) noForm "") (start (backend w1))
      = (JSON 409 alreadyExistsErrorResponse, w2)
    ∧ error_class 409 = Some ConflictError
    ∧ contents (backend w2)
      = <[pathutil.Join "myrepo" "mychart-0.1.0.tgz" := pkgBytes]> (contents emptyStore)
    ∧ size (contents (backend w2)) = S (size (contents emptyStore)).
Proof.
  apply (second_ingestion_conflicts sampleServer
           (sampleContext "myrepo" (Ok pkgBytes) noForm "") pkgBytes
           "mychart-0.1.0.tgz" emptyStore
           (storeWith "myrepo/mychart-0.1.0.tgz" pkgBytes));
    reflexivity.
Defined.

(** * Where the raw path and the form path part ways *)

(** C3: a malformed package, here the empty body that the sample namer
    rejects.  Sent as a form field it is answered 400, a validation
    error; sent as the raw body of a single-artifact ingestion the same
    rejection is answered 500, the class of the handler's I/O and backend
    failures, not a validation error.  Neither request issues a storage
    call. *)
Theorem malformed_raw_body_is_answered_500_not_400 :
  ChartPackageFilenameFromContent [] = Err "no chart metadata found"
  ∧ postPackageRequestHandler sampleServer
      (sampleContext "myrepo" (Ok []) noForm "") (start emptyStore)
    = (JSON 500 (H_error "no chart metadata found"), start emptyStore)
  ∧ error_class 500 = Some BackendError
  ∧ error_class 500 ≠ Some ValidationError
  ∧ postPackageAndProvenanceRequestHandler sampleServer
      (sampleContext "myrepo" (Err "no body") emptyChartForm "") (start emptyStore)
    = (JSON 400 (H_error "no chart metadata found"), start emptyStore)
  ∧ error_class 400 = Some ValidationError.
Proof.
  vm_compute. repeat split. discriminate.
Qed.

(** * Where the code leaves the tenant prefix out *)

(** C1: a form with both files for tenant [myrepo]; the package write
    succeeds and the provenance write fails.  The answer is 500, but the
    clean-up deletes the bare filename, not the key that was written: the
    package object stays in the store. *)
Theorem rollback_misses_the_written_key :
  let st := {| objects := ∅; failing_puts := ["myrepo/mychart-0.1.0.tgz.prov"] |} in
  let server := {| AllowOverwrite := true; ChartPostFormFieldName := "chart";
                   ProvPostFormFieldName := "prov" |} in
  let run := postPackageAndProvenanceRequestHandler server
               (sampleContext "myrepo" (Err "no body") bothFiles "") (start st) in
  run.1 = JSON 500 (H_error "write failed")
  ∧ trace run.2 = [OpPut "myrepo/mychart-0.1.0.tgz" pkgBytes;
                   OpPut "myrepo/mychart-0.1.0.tgz.prov" provBytes;
                   OpDelete "mychart-0.1.0.tgz"]
  ∧ objects (backend run.2) !! "myrepo/mychart-0.1.0.tgz" = Some pkgBytes
  ∧ objects (backend run.2) ≠ objects st.
Proof.
  vm_compute. repeat split. discriminate.
Qed.

(** C2: tenant [myrepo] already holds [mychart-0.1.0.tgz] and overwrite
    is disabled.  The form handler probes the bare filename, finds
    nothing, and overwrites the tenant's object with a 201. *)
Theorem form_probe_misses_the_tenant_key :
  let st := storeWith "myrepo/mychart-0.1.0.tgz" [Byte.x00] in
  let run := postPackageAndProvenanceRequestHandler sampleServer
               (sampleContext "myrepo" (Err "no body") chartOnly "") (start st) in
  AllowOverwrite sampleServer = false
  ∧ objects st !! pathutil.Join "myrepo" "mychart-0.1.0.tgz" = Some [Byte.x00]
  ∧ run.1 = JSON 201 objectSavedResponse
  ∧ trace run.2 = [OpGet "mychart-0.1.0.tgz";
                   OpPut "myrepo/mychart-0.1.0.tgz" pkgBytes]
  ∧ objects (backend run.2) !! "myrepo/mychart-0.1.0.tgz" = Some pkgBytes.
Proof.
  vm_compute. repeat split.
Qed.

(** * Further properties of the handlers *)

Section Loops.

Context {B : Type} {store : StorageBackend B} {namer : ArtifactNamer}.

Implicit Types (w : World B) (server : MultiTenantServer) (c : Context)
  (ppFiles storedFiles : list packageOrProvenanceFile).

(** The clean-up loop issues one delete per stored file, in order, each
    at the file's bare filename, and nothing else. *)
Lemma cleanUp_trace storedFiles w :
  ∃ w', cleanUp storedFiles w = (tt, w')
        ∧ trace w' = trace w ++ map cleanup_of storedFiles.
Proof.
  revert w. induction storedFiles as [|p rest IH]; intros w.
  - exists w. by rewrite app_nil_r.
  - simpl. unfold bind at 1. unfold StorageBackend_DeleteObject.
    destruct (DeleteObject (filename p) (backend w)) as [r b1].
    destruct (IH {| backend := b1; trace := trace w ++ [OpDelete (filename p)] |})
      as (w' & E & Ht).
    exists w'. split; [done|]. rewrite Ht. simpl. by rewrite <- app_assoc.
Qed.

(** When the write loop answers 201, it has issued exactly one write per
    candidate, in order, each at the tenant-scoped key
    [Join(repo, filename)] with the candidate's content, and no other
    storage call. *)
Lemma storeLoop_saved_trace repo ppFiles storedFiles w resp w' :
  storeLoop repo ppFiles storedFiles w = (resp, w') →
  Status resp = 201 →
  resp = JSON 201 objectSavedResponse
  ∧ trace w' = trace w ++ map (put_of repo) ppFiles.
Proof.
  revert storedFiles w. induction ppFiles as [|p rest IH]; intros storedFiles w.
  - intros [= <- <-] _. by rewrite app_nil_r.
  - simpl. unfold bind at 1. unfold StorageBackend_PutObject.
    destruct (PutObject _ _ (backend w)) as [[e|] b1].
    + unfold bind.
      destruct (cleanUp_trace storedFiles
                  {| backend := b1; trace := trace w ++ [put_of repo p] |})
        as (w1 & E & _).
      unfold put_of in E. rewrite E. by intros [= <- <-] Hs.
    + intros E Hs. destruct (IH _ _ E Hs) as [-> Ht]. split; [done|].
      rewrite Ht. simpl. by rewrite <- app_assoc.
Qed.

(** The clean-up loop in full: log and backend. *)
Lemma cleanUp_run storedFiles w :
  cleanUp storedFiles w
  = (tt, {| backend := delete_each storedFiles (backend w);
            trace := trace w ++ map cleanup_of storedFiles |}).
Proof.
  revert w. induction storedFiles as [|p rest IH]; intros w.
  - simpl. unfold ret. rewrite app_nil_r. by destruct w.
  - simpl. unfold bind at 1. unfold StorageBackend_DeleteObject.
    destruct (DeleteObject (filename p) (backend w)) as [r b1] eqn:E.
    rewrite IH. simpl. by rewrite <- app_assoc.
Qed.

(** X1: when the write loop does not answer 201, a write failed.  The
    candidates before the failed one were written, one after the other at
    [Join(repo, filename)], each write succeeding; the write of the next
    candidate returned an error, and the answer is 500 with that error.
    The clean-up then issued one delete per file stored so far, in order,
    each at the file's bare filename, whatever the deletes returned. *)
Theorem storeLoop_failed_trace repo ppFiles storedFiles w resp w' :
  storeLoop repo ppFiles storedFiles w = (resp, w') →
  Status resp ≠ 201 →
  ∃ written p rest e b1 b2,
    ppFiles = written ++ p :: rest
    ∧ put_each repo written (backend w) = Some b1
    ∧ PutObject (pathutil.Join repo (filename p)) (content p) b1 = (Some e, b2)
    ∧ resp = JSON 500 (H_error e)
    ∧ trace w' = trace w ++ map (put_of repo) written ++ [put_of repo p]
                 ++ map cleanup_of (storedFiles ++ written)
    ∧ backend w' = delete_each (storedFiles ++ written) b2.
Proof.
  revert storedFiles w. induction ppFiles as [|p rest IH]; intros storedFiles w.
  - by intros [= <- <-] Hs.
  - simpl. unfold bind at 1. unfold StorageBackend_PutObject.
    destruct (PutObject _ _ (backend w)) as [[e|] b1] eqn:Hput.
    + unfold bind. rewrite cleanUp_run. intros [= <- <-] _.
      exists [], p, rest, e, (backend w), b1.
      split; [done|]. split; [done|]. split; [done|]. split; [done|].
      simpl. rewrite app_nil_r. split; [|done]. by rewrite <- app_assoc.
    + intros E Hs.
      destruct (IH _ _ E Hs)
        as (written & q & rest' & e & b2 & b3 & -> & Hputs & Hfail & -> & Ht & Hb).
      exists (p :: written), q, rest', e, b2, b3.
      split; [done|]. split; [simpl; by rewrite Hput|].
      split; [done|]. split; [done|].
      split; [rewrite Ht; simpl; by rewrite <- !app_assoc|].
      by rewrite Hb, <- app_assoc.
Qed.

(** An extraction that returns no error returns the candidate of the
    field, and has probed its bare filename unless overwrite is allowed. *)
Lemma extract_accepts server req fld fn w p status w' :
  extractAndValidateFormFile server req fld fn w = ((p, status, None), w') →
  p = candidate req fld fn
  ∧ trace w' = trace w ++ probes_of server (option_list p).
Proof.
  intros E. unfold extractAndValidateFormFile in E. unfold candidate, probes_of.
  destruct (ff_file (FormFile req fld)) as [file|].
  2: { injection E as <- _ <-. simpl.
       by destruct (AllowOverwrite server); rewrite app_nil_r. }
  destruct (ff_header (FormFile req fld)) as [header|].
  2: { injection E as <- _ <-. simpl.
       by destruct (AllowOverwrite server); rewrite app_nil_r. }
  destruct (file_read file) as [bs|e]; [|done].
  destruct (fn bs) as [name|e]; [|done].
  destruct (AllowOverwrite server); simpl in *.
  - injection E as <- _ <-. simpl. by rewrite app_nil_r.
  - unfold bind in E. rewrite GetObject_step in E.
    destruct (GetObject name (backend w)).1; [done|].
    by injection E as <- _ <-.
Qed.

Lemma probes_of_app server l1 l2 :
  probes_of server (l1 ++ l2) = probes_of server l1 ++ probes_of server l2.
Proof. unfold probes_of. destruct (AllowOverwrite server); [done|apply map_app]. Qed.

(** X2: whatever the extraction of one form field returns, the status
    is 200 exactly when there is no error, an error comes with 500, 400
    or 409, and a candidate is returned only without an error. *)
Theorem extract_status_agrees_with_error server req fld fn w :
  let '(p, status, err) := (extractAndValidateFormFile server req fld fn w).1 in
  (err = None ↔ status = 200)
  ∧ (is_Some err → status = 500 ∨ status = 400 ∨ status = 409)
  ∧ (is_Some p → err = None).
Proof.
  unfold extractAndValidateFormFile.
  destruct (ff_file (FormFile req fld)) as [file|],
           (ff_header (FormFile req fld)) as [header|];
    try (simpl; split; [done|]; split; by intros [? ?]).
  destruct (file_read file) as [bs|e];
    [|simpl; split; [done|]; split; [by left|by intros [? ?]]].
  destruct (fn bs) as [name|e];
    [|simpl; split; [done|]; split; [by right; left|by intros [? ?]]].
  destruct (negb (AllowOverwrite server));
    [|simpl; split; [done|]; split; [by intros [? ?]|done]].
  unfold bind. rewrite GetObject_step.
  destruct (GetObject name (backend w)).1; simpl.
  - split; [done|]. split; [by right; right|by intros [? ?]].
  - split; [done|]. split; [by intros [? ?]|done].
Qed.

(** The extraction loop.  When it ends without an error, it has added
    exactly the candidates of the fields, in the order of the fields, and
    the storage calls it issued are the probes of those candidates. *)
Lemma extractLoop_accepts server req ffp acc w out w' :
  extractLoop server req ffp acc w = (inr out, w') →
  out = acc ++ candidates req ffp
  ∧ trace w' = trace w ++ probes_of server (candidates req ffp).
Proof.
  revert acc w. induction ffp as [|ff rest IH]; intros acc w.
  - intros [= <- <-]. unfold candidates, probes_of. simpl.
    rewrite !app_nil_r. by destruct (AllowOverwrite server); rewrite ?app_nil_r.
  - simpl. unfold bind at 1.
    destruct (extractAndValidateFormFile server req (ffp_field ff) (ffp_fn ff) w)
      as [[[p status] err] w1] eqn:E.
    destruct err as [e|]; [done|]. intros Hloop.
    destruct (extract_accepts _ _ _ _ _ _ _ _ E) as (Hp & Ht1).
    destruct (IH _ _ Hloop) as (-> & Ht).
    unfold candidates at 1 3. simpl. fold (candidates req rest).
    rewrite <- Hp. destruct p as [q|]; simpl in *.
    + split; [by rewrite <- app_assoc|].
      rewrite Ht, Ht1. change (q :: candidates req rest) with ([q] ++ candidates req rest).
      by rewrite probes_of_app, app_assoc.
    + split; [done|]. rewrite Ht, Ht1.
      replace (probes_of server []) with (@nil StoreOp)
        by (unfold probes_of; by destruct (AllowOverwrite server)).
      by rewrite app_nil_r.
Qed.

(** An extraction error comes with status 500, 400 or 409. *)
Lemma extract_error_status server req fld fn w p status e w' :
  extractAndValidateFormFile server req fld fn w = ((p, status, Some e), w') →
  status = 500 ∨ status = 400 ∨ status = 409.
Proof.
  unfold extractAndValidateFormFile.
  destruct (ff_file (FormFile req fld)) as [file|]; [|done].
  destruct (ff_header (FormFile req fld)) as [header|]; [|done].
  destruct (file_read file) as [bs|e0]; [|intros [= _ <- _ _]; by left].
  destruct (fn bs) as [name|e0]; [|intros [= _ <- _ _]; by right; left].
  destruct (negb (AllowOverwrite server)); [|done].
  unfold bind. rewrite GetObject_step.
  destruct (GetObject name (backend w)).1; [|done].
  intros [= _ <- _ _]. by right; right.
Qed.

Lemma extractLoop_error_status server req ffp acc w resp w' :
  extractLoop server req ffp acc w = (inl resp, w') →
  Status resp = 500 ∨ Status resp = 400 ∨ Status resp = 409.
Proof.
  revert acc w. induction ffp as [|ff rest IH]; intros acc w; [done|].
  simpl. unfold bind at 1.
  destruct (extractAndValidateFormFile server req (ffp_field ff) (ffp_fn ff) w)
    as [[[p status] err] w1] eqn:E.
  destruct err as [e|]; [|by apply IH].
  intros [= <- <-]. simpl. by eapply extract_error_status.
Qed.

(** The three ways the form handler ends: an extraction error, no
    candidate, or the write loop on at least one candidate. *)
Lemma form_handler_cases server c w resp w' :
  postPackageAndProvenanceRequestHandler server c w = (resp, w') →
  let ffp := [ {| ffp_field := ChartPostFormFieldName server;
                  ffp_fn := ChartPackageFilenameFromContent |};
               {| ffp_field := ProvPostFormFieldName server;
                  ffp_fn := ProvenanceFilenameFromContent |} ] in
  extractLoop server (ctx_Request c) ffp [] w = (inl resp, w')
  ∨ (extractLoop server (ctx_Request c) ffp [] w = (inr [], w')
     ∧ resp = JSON 400 (H_error (noFileFoundMessage server)))
  ∨ (∃ ppFiles w1,
       ppFiles ≠ []
       ∧ extractLoop server (ctx_Request c) ffp [] w = (inr ppFiles, w1)
       ∧ storeLoop (GetString c "repo") ppFiles [] w1 = (resp, w')).
Proof.
  intros E ffp. unfold postPackageAndProvenanceRequestHandler in E.
  unfold bind in E at 1. fold ffp in E.
  destruct (extractLoop server (ctx_Request c) ffp [] w) as [[r|ppFiles] w1].
  - left. by injection E as <- <-.
  - destruct ppFiles as [|p rest]; simpl in E.
    + right; left. by injection E as <- <-.
    + right; right. by exists (p :: rest), w1.
Qed.

(** The write loop never probes. *)
Lemma storeLoop_never_probes repo ppFiles storedFiles w resp w' :
  storeLoop repo ppFiles storedFiles w = (resp, w') →
  ∃ ops, trace w' = trace w ++ ops ∧ Forall (λ op, is_probe op = false) ops.
Proof.
  revert storedFiles w. induction ppFiles as [|p rest IH]; intros storedFiles w.
  - intros [= _ <-]. exists []. by rewrite app_nil_r.
  - simpl. unfold bind at 1. unfold StorageBackend_PutObject.
    destruct (PutObject _ _ (backend w)) as [[e|] b1].
    + unfold bind.
      destruct (cleanUp_trace storedFiles
                  {| backend := b1; trace := trace w ++ [put_of repo p] |})
        as (w1 & E & Ht).
      unfold put_of in E at 1. rewrite E. intros [= _ <-].
      exists (put_of repo p :: map cleanup_of storedFiles).
      split; [rewrite Ht; simpl; by rewrite <- app_assoc|].
      constructor; [done|]. by apply Forall_map, Forall_true.
    + intros E. destruct (IH _ _ E) as (ops & Ht & Hops).
      exists (put_of repo p :: ops).
      split; [rewrite Ht; simpl; by rewrite <- app_assoc|]. by constructor.
Qed.

(** The write loop answers 201 or 500. *)
Lemma storeLoop_status repo ppFiles storedFiles w :
  Status (storeLoop repo ppFiles storedFiles w).1 = 201
  ∨ Status (storeLoop repo ppFiles storedFiles w).1 = 500.
Proof.
  revert storedFiles w. induction ppFiles as [|p rest IH]; intros storedFiles w.
  - by left.
  - simpl. unfold bind at 1 3. unfold StorageBackend_PutObject.
    destruct (PutObject _ _ (backend w)) as [[e|] b1]; [|by apply IH].
    right. unfold bind.
    destruct (cleanUp_trace storedFiles
                {| backend := b1; trace := trace w ++ [put_of repo p] |})
      as (w1 & E & _).
    unfold put_of in E at 1. by rewrite E.
Qed.

(** With overwrite allowed the extraction issues no storage call. *)
Lemma extract_overwrite server req fld fn w :
  AllowOverwrite server = true →
  (extractAndValidateFormFile server req fld fn w).2 = w.
Proof.
  intros Hov. unfold extractAndValidateFormFile. rewrite Hov. simpl.
  destruct (ff_file (FormFile req fld)) as [file|]; [|done].
  destruct (ff_header (FormFile req fld)) as [header|]; [|done].
  destruct (file_read file) as [bs|e]; [|done].
  by destruct (fn bs).
Qed.

Lemma extractLoop_overwrite server req ffp acc w :
  AllowOverwrite server = true →
  (extractLoop server req ffp acc w).2 = w.
Proof.
  intros Hov. revert acc w. induction ffp as [|ff rest IH]; intros acc w; [done|].
  simpl. unfold bind at 1.
  pose proof (extract_overwrite server req (ffp_field ff) (ffp_fn ff) w Hov) as Hw.
  destruct (extractAndValidateFormFile server req (ffp_field ff) (ffp_fn ff) w)
    as [[[p status] err] w1].
  simpl in Hw. subst w1. destruct err as [e|]; [done|]. apply IH.
Qed.

(** X3: when the form handler answers 201, everything it did to the
    store is fixed by the form.  Its candidates are the files of the
    package field and of the provenance field that are present, readable
    and named by the matching function, in that order, and there is at
    least one.  Its storage calls are, unless overwrite is allowed, one
    probe per candidate at the bare filename, and then exactly one write
    per candidate, in the same order, at the tenant-scoped key with the
    candidate's content. *)
Theorem form_saved_trace server c w resp w' :
  postPackageAndProvenanceRequestHandler server c w = (resp, w') →
  Status resp = 201 →
  let cands := candidates (ctx_Request c) (formFields server) in
  cands ≠ []
  ∧ trace w' = trace w ++ probes_of server cands
               ++ map (put_of (GetString c "repo")) cands.
Proof.
  intros E Hs cands.
  destruct (form_handler_cases _ _ _ _ _ E)
    as [Hx | [[_ ->] | (ppFiles & w1 & Hne & Hx & Hst)]]; [| done |].
  - destruct (extractLoop_error_status _ _ _ _ _ _ _ Hx) as [H1|[H1|H1]];
      rewrite H1 in Hs; done.
  - destruct (extractLoop_accepts _ _ _ _ _ _ _ Hx) as (Hout & Ht).
    simpl in Hout. fold (formFields server) in Hout, Ht. fold cands in Hout, Ht.
    subst ppFiles.
    destruct (storeLoop_saved_trace _ _ _ _ _ _ Hst Hs) as [_ Ht'].
    split; [done|]. by rewrite Ht', Ht, app_assoc.
Qed.

(** X4: with overwrite allowed no ingestion handler ever probes: every
    storage call of the raw package handler, the raw provenance handler
    and the form handler is a write or a delete. *)
Theorem overwrite_never_probes server c w :
  AllowOverwrite server = true →
  ∀ handler,
    handler = postPackageRequestHandler server c
    ∨ handler = postProvenanceFileRequestHandler server c
    ∨ handler = postPackageAndProvenanceRequestHandler server c →
    ∃ ops, trace (handler w).2 = trace w ++ ops
           ∧ Forall (λ op, is_probe op = false) ops.
Proof.
  intros Hov handler [-> | [-> | ->]].
  - unfold postPackageRequestHandler. rewrite Hov. simpl.
    destruct (GetRawData c) as [bs|e]; [|exists []; by rewrite app_nil_r].
    destruct (ChartPackageFilenameFromContent bs) as [fn|e];
      [|exists []; by rewrite app_nil_r].
    unfold bind, StorageBackend_PutObject.
    destruct (PutObject _ bs (backend w)) as [[e|] b1]; simpl;
      eexists [_]; split; try done; by repeat constructor.
  - unfold postProvenanceFileRequestHandler. rewrite Hov. simpl.
    destruct (GetRawData c) as [bs|e]; [|exists []; by rewrite app_nil_r].
    destruct (ProvenanceFilenameFromContent bs) as [fn|e];
      [|exists []; by rewrite app_nil_r].
    unfold bind, StorageBackend_PutObject.
    destruct (PutObject _ bs (backend w)) as [[e|] b1]; simpl;
      eexists [_]; split; try done; by repeat constructor.
  - destruct (postPackageAndProvenanceRequestHandler server c w) as [resp w'] eqn:E.
    simpl.
    destruct (form_handler_cases _ _ _ _ _ E)
      as [Hx | [[Hx _] | (ppFiles & w1 & _ & Hx & Hst)]].
    + match type of Hx with extractLoop _ _ ?ffp _ _ = _ =>
        pose proof (extractLoop_overwrite server (ctx_Request c) ffp [] w Hov) as Hw
      end.
      rewrite Hx in Hw. simpl in Hw. subst. exists []. by rewrite app_nil_r.
    + match type of Hx with extractLoop _ _ ?ffp _ _ = _ =>
        pose proof (extractLoop_overwrite server (ctx_Request c) ffp [] w Hov) as Hw
      end.
      rewrite Hx in Hw. simpl in Hw. subst. exists []. by rewrite app_nil_r.
    + match type of Hx with extractLoop _ _ ?ffp _ _ = _ =>
        pose proof (extractLoop_overwrite server (ctx_Request c) ffp [] w Hov) as Hw
      end.
      rewrite Hx in Hw. simpl in Hw. subst.
      by eapply storeLoop_never_probes.
Qed.

End Loops.

Section Outcomes.

Context {B : Type} {store : StorageBackend B} {namer : ArtifactNamer}
        {index : TenantIndex B}.

Implicit Types (w : World B) (b : B) (server : MultiTenantServer) (c : Context).

(** X5: the raw package handler stays on one key.  Whatever the request
    and the backend, it issues at most two storage calls, never a delete,
    and each of them is the probe or the write of the tenant-scoped key
    [Join(repo, filename)] derived from the request body. *)
Theorem package_handler_stays_on_tenant_key server c w :
  ∃ ops,
    trace (postPackageRequestHandler server c w).2 = trace w ++ ops
    ∧ (length ops ≤ 2)%nat
    ∧ ∀ op, op ∈ ops →
        ∃ content fn,
          GetRawData c = Ok content
          ∧ ChartPackageFilenameFromContent content = Ok fn
          ∧ (op = OpGet (pathutil.Join (GetString c "repo") fn)
             ∨ op = OpPut (pathutil.Join (GetString c "repo") fn) content).
Proof.
  unfold postPackageRequestHandler.
  destruct (GetRawData c) as [bs|e];
    [|exists []; rewrite app_nil_r; repeat split; [simpl; lia|by intros ? ?%elem_of_nil]].
  destruct (ChartPackageFilenameFromContent bs) as [fn|e] eqn:Hfn;
    [|exists []; rewrite app_nil_r; repeat split; [simpl; lia|by intros ? ?%elem_of_nil]].
  set (key := pathutil.Join (GetString c "repo") fn).
  destruct (negb (AllowOverwrite server)).
  - unfold bind at 1. rewrite GetObject_step.
    destruct (GetObject key (backend w)).1.
    + exists [OpGet key]. repeat split; [simpl; lia|].
      intros op ->%list_elem_of_singleton. exists bs, fn. split; [done|]. split; [done|]. by left.
    + unfold bind, StorageBackend_PutObject. simpl.
      destruct (PutObject key bs _) as [[e'|] b1]; simpl;
        exists [OpGet key; OpPut key bs];
        (split; [by rewrite <- app_assoc|]); (split; [simpl; lia|]);
        intros op Hin; apply elem_of_cons in Hin as [->|Hin];
        try (apply list_elem_of_singleton in Hin as ->);
        exists bs, fn; (split; [done|]); (split; [done|]); auto.
  - unfold bind, StorageBackend_PutObject.
    destruct (PutObject key bs (backend w)) as [[e'|] b1]; simpl;
      exists [OpPut key bs]; repeat split; try (simpl; lia);
      intros op ->%list_elem_of_singleton; exists bs, fn;
      (split; [done|]); (split; [done|]); auto.
Qed.

(** X6: the statuses the handlers can answer.  The raw package and
    provenance handlers answer 201, 409 or 500 and never 400; the form
    handler answers 201, 400, 409 or 500; the delete handler answers 200
    or 404. *)
Theorem handler_status_sets server c w :
  (Status (postPackageRequestHandler server c w).1 ∈ [201; 409; 500])
  ∧ (Status (postProvenanceFileRequestHandler server c w).1 ∈ [201; 409; 500])
  ∧ (Status (postPackageAndProvenanceRequestHandler server c w).1 ∈ [201; 400; 409; 500])
  ∧ (Status (deleteChartVersionRequestHandler server c w).1 ∈ [200; 404]).
Proof.
  split; [|split; [|split]].
  - unfold postPackageRequestHandler.
    destruct (GetRawData c) as [bs|e]; [|set_solver].
    destruct (ChartPackageFilenameFromContent bs) as [fn|e]; [|set_solver].
    destruct (negb (AllowOverwrite server)).
    + unfold bind at 1. rewrite GetObject_step.
      destruct (GetObject _ (backend w)).1; [set_solver|].
      unfold bind, StorageBackend_PutObject. simpl.
      destruct (PutObject _ bs _) as [[e'|] b1]; set_solver.
    + unfold bind, StorageBackend_PutObject.
      destruct (PutObject _ bs _) as [[e'|] b1]; set_solver.
  - unfold postProvenanceFileRequestHandler.
    destruct (GetRawData c) as [bs|e]; [|set_solver].
    destruct (ProvenanceFilenameFromContent bs) as [fn|e]; [|set_solver].
    destruct (negb (AllowOverwrite server)).
    + unfold bind at 1. rewrite GetObject_step.
      destruct (GetObject _ (backend w)).1; [set_solver|].
      unfold bind, StorageBackend_PutObject. simpl.
      destruct (PutObject _ bs _) as [[e'|] b1]; set_solver.
    + unfold bind, StorageBackend_PutObject.
      destruct (PutObject _ bs _) as [[e'|] b1]; set_solver.
  - destruct (postPackageAndProvenanceRequestHandler server c w) as [resp w'] eqn:E.
    simpl.
    destruct (form_handler_cases _ _ _ _ _ E)
      as [Hx | [[_ ->] | (ppFiles & w1 & _ & _ & Hst)]].
    + destruct (extractLoop_error_status _ _ _ _ _ _ _ Hx) as [-> | [-> | ->]];
        set_solver.
    + set_solver.
    + destruct (decide (Status resp = 201)) as [-> | Hne]; [set_solver|].
      assert (Status resp = 500) as ->; [|set_solver].
      clear E. revert Hst Hne. generalize (@nil packageOrProvenanceFile).
      revert w1. induction ppFiles as [|p rest IH]; intros w1 stored.
      * by intros [= <- _].
      * simpl. unfold bind at 1. unfold StorageBackend_PutObject.
        destruct (PutObject _ _ (backend w1)) as [[e|] b1]; [|by apply IH].
        unfold bind.
        destruct (cleanUp_trace stored
                    {| backend := b1; trace := trace w1 ++ [put_of (GetString c "repo") p] |})
          as (w2 & E2 & _).
        unfold put_of in E2 at 1. rewrite E2. by intros [= <- _].
  - unfold deleteChartVersionRequestHandler, bind, StorageBackend_DeleteObject.
    destruct (DeleteObject _ (backend w)) as [[e|] b1]; [set_solver|].
    simpl. match goal with
           | |- context [DeleteObject ?k b1] => destruct (DeleteObject k b1) as [r b2]
           end.
    set_solver.
Qed.

(** X7: for requests of the same tenant and chart name, asking for
    version "latest" and asking for the empty version are the same
    request: same answer, same effect. *)
Theorem latest_is_the_empty_version server c1 c2 w :
  GetString c1 "repo" = GetString c2 "repo" →
  Param c1 "name" = Param c2 "name" →
  Param c1 "version" = "latest" →
  Param c2 "version" = "" →
  getChartVersionRequestHandler server c1 w
  = getChartVersionRequestHandler server c2 w.
Proof.
  intros Hrepo Hname Hv1 Hv2. unfold getChartVersionRequestHandler.
  by rewrite Hrepo, Hname, Hv1, Hv2.
Qed.

(** X8: what the dispatcher reads.  A multipart request is answered
    from the tenant and the form alone, whatever its raw body; any other
    request from the tenant and the raw body alone, whatever its form. *)
Theorem postRequestHandler_reads server contentType c1 c2 w :
  GetString c1 "repo" = GetString c2 "repo" →
  (contentType = "multipart/form-data" →
   ctx_Request c1 = ctx_Request c2 →
   postRequestHandler server contentType c1 w
   = postRequestHandler server contentType c2 w)
  ∧ (contentType ≠ "multipart/form-data" →
     GetRawData c1 = GetRawData c2 →
     postRequestHandler server contentType c1 w
     = postRequestHandler server contentType c2 w).
Proof.
  intros Hrepo. unfold postRequestHandler. split.
  - intros -> Hreq. simpl.
    unfold postPackageAndProvenanceRequestHandler. by rewrite Hrepo, Hreq.
  - intros Hct Hraw. apply String.eqb_neq in Hct. rewrite Hct.
    unfold postPackageRequestHandler. by rewrite Hrepo, Hraw.
Qed.

(** X9: with overwrite allowed, a form that carries only the package
    field is the raw upload of the same bytes: when the namer accepts
    them, the form handler and the raw package handler give the same
    answer, the same storage calls and the same backend state. *)
Theorem form_with_package_only_is_raw_upload server c w file header content fn :
  AllowOverwrite server = true →
  GetRawData c = Ok content →
  ff_file (FormFile (ctx_Request c) (ChartPostFormFieldName server)) = Some file →
  ff_header (FormFile (ctx_Request c) (ChartPostFormFieldName server)) = Some header →
  file_read file = Ok content →
  field_absent (ctx_Request c) (ProvPostFormFieldName server) →
  ChartPackageFilenameFromContent content = Ok fn →
  postPackageAndProvenanceRequestHandler server c w
  = postPackageRequestHandler server c w.
Proof.
  intros Hov Hraw Hfile Hheader Hread Habsent Hfn.
  unfold postPackageAndProvenanceRequestHandler, postPackageRequestHandler.
  rewrite Hraw, Hfn, Hov. simpl. unfold bind at 1. unfold bind at 1.
  unfold extractAndValidateFormFile at 1.
  rewrite Hfile, Hheader, Hread, Hfn, Hov. simpl. unfold bind at 1.
  rewrite (extract_absent _ _ _ _ _ Habsent). simpl.
  unfold bind, StorageBackend_PutObject.
  by destruct (PutObject _ content (backend w)) as [[e|] b1].
Qed.

End Outcomes.

Section MapBackends.

Context {B : Type} {store : StorageBackend B} {namer : ArtifactNamer}
        {lawful : LawfulBackend B}.

Implicit Types (w : World B) (b : B) (server : MultiTenantServer) (c : Context).

(** A probe leaves the contents as they are. *)
Lemma extract_contents server req fld fn w :
  contents (backend (extractAndValidateFormFile server req fld fn w).2)
  = contents (backend w).
Proof.
  unfold extractAndValidateFormFile.
  destruct (ff_file (FormFile req fld)) as [file|]; [|done].
  destruct (ff_header (FormFile req fld)) as [header|]; [|done].
  destruct (file_read file) as [bs|e]; [|done].
  destruct (fn bs) as [name|e]; [|done].
  destruct (negb (AllowOverwrite server)); [|done].
  unfold bind. rewrite GetObject_step.
  destruct (GetObject name (backend w)).1; simpl; apply GetObject_contents.
Qed.

Lemma extractLoop_contents server req ffp acc w :
  contents (backend (extractLoop server req ffp acc w).2) = contents (backend w).
Proof.
  revert acc w. induction ffp as [|ff rest IH]; intros acc w; [done|].
  simpl. unfold bind at 1.
  pose proof (extract_contents server req (ffp_field ff) (ffp_fn ff) w) as Hc.
  destruct (extractAndValidateFormFile server req (ffp_field ff) (ffp_fn ff) w)
    as [[[p status] err] w1].
  simpl in Hc. destruct err as [e|]; [done|]. by rewrite IH.
Qed.

Lemma storeLoop_saved_contents repo ppFiles storedFiles w resp w' :
  storeLoop repo ppFiles storedFiles w = (resp, w') →
  Status resp = 201 →
  contents (backend w') = stored_after repo ppFiles (contents (backend w)).
Proof.
  revert storedFiles w. induction ppFiles as [|p rest IH]; intros storedFiles w.
  - by intros [= _ <-] _.
  - simpl. unfold bind at 1. unfold StorageBackend_PutObject.
    destruct (PutObject _ _ (backend w)) as [[e|] b1] eqn:Hput.
    + unfold bind.
      destruct (cleanUp_trace storedFiles
                  {| backend := b1; trace := trace w ++ [put_of repo p] |})
        as (w1 & E & _).
      unfold put_of in E at 1. rewrite E. by intros [= <- _] Hs.
    + intros E Hs. rewrite (IH _ _ E Hs). simpl.
      by rewrite (PutObject_contents _ _ _ _ Hput).
Qed.

(** X10: on a backend that behaves like a map, a 201 of the form
    handler means the store holds every candidate of the form: the files
    of the package and provenance fields that are present, readable and
    named by the matching function.  The contents are the contents before
    the request with each candidate's content written, package first, at
    [Join(repo, filename)]; there is at least one candidate. *)
Theorem form_saved_means_stored server c w resp w' :
  postPackageAndProvenanceRequestHandler server c w = (resp, w') →
  Status resp = 201 →
  let cands := candidates (ctx_Request c) (formFields server) in
  cands ≠ []
  ∧ contents (backend w')
    = stored_after (GetString c "repo") cands (contents (backend w)).
Proof.
  intros E Hs cands.
  destruct (form_handler_cases _ _ _ _ _ E)
    as [Hx | [[_ ->] | (ppFiles & w1 & Hne & Hx & Hst)]]; [| done |].
  - destruct (extractLoop_error_status _ _ _ _ _ _ _ Hx) as [H1|[H1|H1]];
      rewrite H1 in Hs; done.
  - destruct (extractLoop_accepts _ _ _ _ _ _ _ Hx) as (Hout & _).
    simpl in Hout. fold (formFields server) in Hout. fold cands in Hout.
    subst ppFiles. split; [done|].
    rewrite (storeLoop_saved_contents _ _ _ _ _ _ Hst Hs).
    match type of Hx with extractLoop ?s ?r ?f ?a ?w0 = _ =>
      pose proof (extractLoop_contents s r f a w0) as Hc
    end.
    rewrite Hx in Hc. simpl in Hc. by rewrite Hc.
Qed.

(** X11: on a backend that behaves like a map, a 201 of the raw package
    handler means the body was readable, the namer accepted it, and the
    store is the store before the request with the body written at the
    tenant-scoped key [Join(repo, filename)]. *)
Theorem package_saved_means_stored server c w resp w' :
  postPackageRequestHandler server c w = (resp, w') →
  Status resp = 201 →
  ∃ content fn,
    GetRawData c = Ok content
    ∧ ChartPackageFilenameFromContent content = Ok fn
    ∧ contents (backend w')
      = <[pathutil.Join (GetString c "repo") fn := content]> (contents (backend w)).
Proof.
  unfold postPackageRequestHandler.
  destruct (GetRawData c) as [bs|e]; [|by intros [= <- _]].
  destruct (ChartPackageFilenameFromContent bs) as [fn|e] eqn:Hfn;
    [|by intros [= <- _]].
  set (key := pathutil.Join (GetString c "repo") fn).
  destruct (negb (AllowOverwrite server)).
  - unfold bind at 1. rewrite GetObject_step.
    destruct (GetObject key (backend w)).1; [by intros [= <- _]|].
    unfold bind, StorageBackend_PutObject. simpl.
    destruct (PutObject key bs _) as [[e'|] b1] eqn:Hput; [by intros [= <- _]|].
    intros [= _ <-] _. exists bs, fn. split; [done|]. split; [done|]. simpl.
    by rewrite (PutObject_contents _ _ _ _ Hput), GetObject_contents.
  - unfold bind, StorageBackend_PutObject.
    destruct (PutObject key bs (backend w)) as [[e'|] b1] eqn:Hput;
      [by intros [= <- _]|].
    intros [= _ <-] _. exists bs, fn. split; [done|]. split; [done|]. simpl.
    by rewrite (PutObject_contents _ _ _ _ Hput).
Qed.

(** X12: overwrite allowed, a backend that behaves like a map and
    accepts both writes.  Two raw uploads of one tenant whose bodies the
    namer gives the same filename are both answered 201, and afterwards
    the store holds the second body at the tenant-scoped key. *)
Theorem second_upload_wins server c1 c2 content1 content2 fn b b1 b2 :
  AllowOverwrite server = true →
  GetString c1 "repo" = GetString c2 "repo" →
  GetRawData c1 = Ok content1 →
  GetRawData c2 = Ok content2 →
  ChartPackageFilenameFromContent content1 = Ok fn →
  ChartPackageFilenameFromContent content2 = Ok fn →
  let key := pathutil.Join (GetString c1 "repo") fn in
  PutObject key content1 b = (None, b1) →
  PutObject key content2 b1 = (None, b2) →
  postPackageRequestHandler server c1 (start b)
  = (JSON 201 objectSavedResponse, {| backend := b1; trace := [OpPut key content1] |})
  ∧ postPackageRequestHandler server c2 (start b1)
    = (JSON 201 objectSavedResponse, {| backend := b2; trace := [OpPut key content2] |})
  ∧ contents b2 = <[key := content2]> (contents b).
Proof.
  intros Hov Hrepo Hraw1 Hraw2 Hfn1 Hfn2 key Hput1 Hput2.
  split; [|split].
  - unfold postPackageRequestHandler. rewrite Hraw1, Hfn1, Hov. simpl.
    fold key. unfold bind.
    by rewrite (PutObject_step key content1 (start b) _ _ Hput1).
  - unfold postPackageRequestHandler. rewrite Hraw2, Hfn2, Hov, <- Hrepo. simpl.
    fold key. unfold bind.
    by rewrite (PutObject_step key content2 (start b1) _ _ Hput2).
  - rewrite (PutObject_contents _ _ _ _ Hput2), (PutObject_contents _ _ _ _ Hput1).
    apply insert_insert_eq.
Qed.

(** X13: overwrite disabled, a backend that behaves like a map and
    accepts the writes, a tenant whose key [Join(repo, filename)] is free
    and differs from the bare filename.  Uploading the same provenance
    body twice through the raw provenance handler is answered 201 both
    times: the probe reads the tenant-scoped key, which the write to the
    bare filename never fills. *)
Theorem provenance_conflict_is_never_seen server c content fn b b1 b2 :
  AllowOverwrite server = false →
  GetRawData c = Ok content →
  ProvenanceFilenameFromContent content = Ok fn →
  let key := pathutil.Join (GetString c "repo") fn in
  key ≠ fn →
  contents b !! key = None →
  PutObject fn content (GetObject key b).2 = (None, b1) →
  PutObject fn content (GetObject key b1).2 = (None, b2) →
  postProvenanceFileRequestHandler server c (start b)
  = (JSON 201 objectSavedResponse,
     {| backend := b1; trace := [OpGet key; OpPut fn content] |})
  ∧ postProvenanceFileRequestHandler server c (start b1)
    = (JSON 201 objectSavedResponse,
       {| backend := b2; trace := [OpGet key; OpPut fn content] |})
  ∧ contents b2 !! key = None
  ∧ contents b2 !! fn = Some content.
Proof.
  intros Hov Hraw Hfn key Hne Hnone Hput1 Hput2.
  assert (Hb1 : contents b1 = <[fn := content]> (contents b)).
  { by rewrite (PutObject_contents _ _ _ _ Hput1), GetObject_contents. }
  assert (Hb2 : contents b2 = <[fn := content]> (contents b)).
  { rewrite (PutObject_contents _ _ _ _ Hput2), GetObject_contents, Hb1.
    apply insert_insert_eq. }
  assert (Hnone1 : contents b1 !! key = None).
  { rewrite Hb1, lookup_insert_ne; [done|]. intros Heq. by apply Hne. }
  destruct (GetObject_absent key b Hnone) as [e He].
  destruct (GetObject_absent key b1 Hnone1) as [e1 He1].
  split; [|split; [|split]].
  - unfold postProvenanceFileRequestHandler. rewrite Hraw, Hfn, Hov. simpl.
    fold key. unfold bind at 1. rewrite GetObject_step.
    cbn [start backend trace]. rewrite He. unfold bind.
    by rewrite (PutObject_step fn content (Build_World B _ _) _ _ Hput1).
  - unfold postProvenanceFileRequestHandler. rewrite Hraw, Hfn, Hov. simpl.
    fold key. unfold bind at 1. rewrite GetObject_step.
    cbn [start backend trace]. rewrite He1. unfold bind.
    by rewrite (PutObject_step fn content (Build_World B _ _) _ _ Hput2).
  - rewrite Hb2, lookup_insert_ne; [done|]. intros Heq. by apply Hne.
  - by rewrite Hb2, lookup_insert_eq.
Qed.

(** X14: on a backend that behaves like a map, a form request answered
    400 or 409 leaves the contents of the store as they were. *)
Theorem form_rejected_leaves_store server c w resp w' :
  postPackageAndProvenanceRequestHandler server c w = (resp, w') →
  Status resp = 400 ∨ Status resp = 409 →
  contents (backend w') = contents (backend w).
Proof.
  intros E Hs.
  destruct (form_handler_cases _ _ _ _ _ E)
    as [Hx | [[Hx _] | (ppFiles & w1 & _ & _ & Hst)]].
  - match type of Hx with extractLoop ?s ?r ?f ?a ?w0 = _ =>
      pose proof (extractLoop_contents s r f a w0) as Hc
    end.
    by rewrite Hx in Hc.
  - match type of Hx with extractLoop ?s ?r ?f ?a ?w0 = _ =>
      pose proof (extractLoop_contents s r f a w0) as Hc
    end.
    by rewrite Hx in Hc.
  - pose proof (storeLoop_status (GetString c "repo") ppFiles [] w1) as Hst2.
    rewrite Hst in Hst2. simpl in Hst2.
    destruct Hs as [Hs|Hs], Hst2 as [H2|H2]; rewrite Hs in H2; done.
Qed.

(** X15: when the conflict answer of the raw package handler is given.
    For a readable body that the namer accepts, on a backend that behaves
    like a map, the answer is 409 exactly when overwrite is disabled and
    the tenant-scoped key [Join(repo, filename)] is taken. *)
Theorem package_conflict_iff_key_taken server c w content fn :
  GetRawData c = Ok content →
  ChartPackageFilenameFromContent content = Ok fn →
  Status (postPackageRequestHandler server c w).1 = 409
  ↔ AllowOverwrite server = false
    ∧ is_Some (contents (backend w) !! pathutil.Join (GetString c "repo") fn).
Proof.
  intros Hraw Hfn. unfold postPackageRequestHandler. rewrite Hraw, Hfn.
  set (key := pathutil.Join (GetString c "repo") fn).
  destruct (AllowOverwrite server); simpl.
  - unfold bind, StorageBackend_PutObject.
    destruct (PutObject key content (backend w)) as [[e|] b1]; simpl;
      split; [done|by intros [? _]|done|by intros [? _]].
  - unfold bind at 1. rewrite GetObject_step.
    destruct (GetObject key (backend w)).1 as [o|e] eqn:Hget; simpl.
    + split; [|done]. intros _. split; [done|].
      apply GetObject_found. by exists o.
    + unfold bind, StorageBackend_PutObject. simpl.
      assert (Hnone : ¬ is_Some (contents (backend w) !! key)).
      { intros Hsome. apply GetObject_found in Hsome as [o Ho]. congruence. }
      destruct (PutObject key content _) as [[e'|] b1]; simpl;
        split; try done; by intros [_ ?].
Qed.

(** X16: when the conflict answer of the form extraction is given.  For
    a field whose file is readable and accepted by the namer, on a backend
    that behaves like a map, the extraction returns 409 exactly when
    overwrite is disabled and the bare derived filename is a key of the
    store. *)
Theorem extract_conflict_iff_filename_taken server req fld fn w file header
    content name :
  ff_file (FormFile req fld) = Some file →
  ff_header (FormFile req fld) = Some header →
  file_read file = Ok content →
  fn content = Ok name →
  (extractAndValidateFormFile server req fld fn w).1.1.2 = 409
  ↔ AllowOverwrite server = false ∧ is_Some (contents (backend w) !! name).
Proof.
  intros Hfile Hheader Hread Hname. unfold extractAndValidateFormFile.
  rewrite Hfile, Hheader, Hread, Hname.
  destruct (AllowOverwrite server); simpl.
  - split; [done|by intros [? _]].
  - unfold bind. rewrite GetObject_step.
    destruct (GetObject name (backend w)).1 as [o|e] eqn:Hget; simpl.
    + split; [|done]. intros _. split; [done|].
      apply GetObject_found. by exists o.
    + split; [done|]. intros [_ Hsome].
      apply GetObject_found in Hsome as [o Ho]. congruence.
Qed.

Section Strict.

Context {strict : StrictBackend B}.

(** X17: on a strict backend an upload that is not answered 201 leaves
    the contents of the store as they were, and a 409 means the
    tenant-scoped key was already taken. *)
Theorem package_not_saved_leaves_store server c w resp w' :
  postPackageRequestHandler server c w = (resp, w') →
  Status resp ≠ 201 →
  contents (backend w') = contents (backend w)
  ∧ (Status resp = 409 →
     ∃ content fn,
       GetRawData c = Ok content
       ∧ ChartPackageFilenameFromContent content = Ok fn
       ∧ is_Some (contents (backend w) !! pathutil.Join (GetString c "repo") fn)).
Proof.
  unfold postPackageRequestHandler.
  destruct (GetRawData c) as [bs|e]; [|by intros [= <- <-]].
  destruct (ChartPackageFilenameFromContent bs) as [fn|e] eqn:Hfn;
    [|by intros [= <- <-]].
  set (key := pathutil.Join (GetString c "repo") fn).
  destruct (negb (AllowOverwrite server)).
  - unfold bind at 1. rewrite GetObject_step.
    destruct (GetObject key (backend w)).1 as [o|e] eqn:Hget.
    + intros [= <- <-] _. simpl. split; [apply GetObject_contents|].
      intros _. exists bs, fn. split; [done|]. split; [done|].
      apply GetObject_found. by exists o.
    + unfold bind, StorageBackend_PutObject. simpl.
      destruct (PutObject key bs _) as [[e'|] b1] eqn:Hput; [|by intros [= <- _]].
      intros [= <- <-] _. simpl. split; [|done].
      by rewrite (PutObject_failed _ _ _ _ _ Hput), GetObject_contents.
  - unfold bind, StorageBackend_PutObject.
    destruct (PutObject key bs (backend w)) as [[e'|] b1] eqn:Hput;
      [|by intros [= <- _]].
    intros [= <- <-] _. simpl. split; [|done].
    by rewrite (PutObject_failed _ _ _ _ _ Hput).
Qed.

(** The delete handler on a strict backend, by the presence of the
    package object. *)
Lemma delete_run server c w :
  let pkg := pathutil.Join (GetString c "repo")
               (ChartPackageFilenameFromNameVersion (Param c "name") (Param c "version")) in
  let prov := pathutil.Join (GetString c "repo")
                (ProvenanceFilenameFromNameVersion (Param c "name") (Param c "version")) in
  let run := deleteChartVersionRequestHandler server c w in
  (contents (backend w) !! pkg = None →
   run.1 = JSON 404 (H_error "not found")
   ∧ contents (backend run.2) = contents (backend w))
  ∧ (is_Some (contents (backend w) !! pkg) →
     run.1 = JSON 200 H_deleted
     ∧ contents (backend run.2) = delete prov (delete pkg (contents (backend w)))).
Proof.
  intros pkg prov run. subst run.
  unfold deleteChartVersionRequestHandler, bind, StorageBackend_DeleteObject.
  fold pkg prov.
  pose proof (DeleteObject_found pkg (backend w)) as Hfound.
  destruct (DeleteObject pkg (backend w)) as [[e|] b1] eqn:Hdel;
    cbn [fst snd backend trace] in *.
  - split.
    + intros _. split; [done|]. by apply (DeleteObject_failed _ _ _ _ Hdel).
    + intros Hsome. by apply Hfound in Hsome.
  - split.
    + intros Hnone. destruct Hfound as [Hfound _].
      destruct (Hfound eq_refl) as [v Hv]. congruence.
    + intros _.
      pose proof (DeleteObject_found prov b1) as Hfound2.
      destruct (DeleteObject prov b1) as [[e|] b2] eqn:Hdel2;
        cbn [fst snd backend trace] in *.
      * split; [done|].
        rewrite (DeleteObject_failed _ _ _ _ Hdel2).
        rewrite (DeleteObject_contents _ _ _ Hdel).
        symmetry. apply delete_id.
        rewrite <- (DeleteObject_contents _ _ _ Hdel).
        destruct (contents b1 !! prov) as [v|] eqn:Hv; [|done].
        assert (Some e = None) by (apply Hfound2; by exists v). done.
      * split; [done|].
        by rewrite (DeleteObject_contents _ _ _ Hdel2),
                   (DeleteObject_contents _ _ _ Hdel).
Qed.

(** X18: on a strict backend the presence of the package object decides
    a delete.  The answer is 200 exactly when the tenant-scoped package
    key is present; then the store afterwards is the store before without
    the package key and without the provenance key, every other object
    untouched.  Otherwise the answer is 404 and the contents are as they
    were, also when a provenance object is present. *)
Theorem delete_is_decided_by_the_package server c w resp w' :
  deleteChartVersionRequestHandler server c w = (resp, w') →
  let pkg := pathutil.Join (GetString c "repo")
               (ChartPackageFilenameFromNameVersion (Param c "name") (Param c "version")) in
  let prov := pathutil.Join (GetString c "repo")
                (ProvenanceFilenameFromNameVersion (Param c "name") (Param c "version")) in
  (Status resp = 200 ↔ is_Some (contents (backend w) !! pkg))
  ∧ (Status resp = 200 →
     contents (backend w') = delete prov (delete pkg (contents (backend w)))
     ∧ ∀ k, k ≠ pkg → k ≠ prov →
            contents (backend w') !! k = contents (backend w) !! k)
  ∧ (Status resp ≠ 200 →
     resp = JSON 404 (H_error "not found")
     ∧ contents (backend w') = contents (backend w)).
Proof.
  intros E pkg prov.
  destruct (delete_run server c w) as [Habsent Hpresent].
  fold pkg prov in Habsent, Hpresent. rewrite E in Habsent, Hpresent.
  simpl in Habsent, Hpresent.
  destruct (contents (backend w) !! pkg) as [v|] eqn:Hv.
  - destruct Hpresent as [-> Hc]; [by eexists|].
    split; [split; [by eexists|done]|]. split; [|done].
    intros _. split; [done|]. intros k Hk1 Hk2.
    by rewrite Hc, lookup_delete_ne, lookup_delete_ne.
  - destruct Habsent as [-> Hc]; [done|].
    split; [split; [done|by intros [? ?]]|]. split; [done|]. by intros _.
Qed.

(** X19: on a strict backend, deleting a version twice.  When the first
    delete is answered 200, repeating it on the resulting store is
    answered 404 and changes nothing. *)
Theorem second_delete_is_not_found server c w w1 :
  deleteChartVersionRequestHandler server c w = (JSON 200 H_deleted, w1) →
  ∃ w2,
    deleteChartVersionRequestHandler server c w1 = (JSON 404 (H_error "not found"), w2)
    ∧ contents (backend w2) = contents (backend w1).
Proof.
  intros E.
  destruct (delete_run server c w) as [Habsent Hpresent].
  rewrite E in Habsent, Hpresent. simpl in Habsent, Hpresent.
  set (pkg := pathutil.Join (GetString c "repo")
                (ChartPackageFilenameFromNameVersion (Param c "name") (Param c "version")))
    in *.
  assert (Hgone : contents (backend w1) !! pkg = None).
  { destruct (contents (backend w) !! pkg) as [v|] eqn:Hv.
    - destruct Hpresent as [_ ->]; [by eexists|].
      destruct (decide (pkg = pathutil.Join (GetString c "repo")
                  (ProvenanceFilenameFromNameVersion (Param c "name") (Param c "version"))))
        as [<-|Hne].
      + apply lookup_delete_eq.
      + rewrite lookup_delete_ne; [|done]. apply lookup_delete_eq.
    - by destruct Habsent as [[=] _]. }
  destruct (delete_run server c w1) as [Habsent1 _].
  fold pkg in Habsent1. destruct (Habsent1 Hgone) as [Hr Hc].
  destruct (deleteChartVersionRequestHandler server c w1) as [resp w2].
  simpl in Hr, Hc. subst resp. by exists w2.
Qed.

(** The contents after a saved raw upload. *)
Lemma package_saved_contents server c w resp w' content fn :
  postPackageRequestHandler server c w = (resp, w') →
  Status resp = 201 →
  GetRawData c = Ok content →
  ChartPackageFilenameFromContent content = Ok fn →
  contents (backend w')
  = <[pathutil.Join (GetString c "repo") fn := content]> (contents (backend w)).
Proof.
  intros E Hs Hraw Hfn. unfold postPackageRequestHandler in E.
  rewrite Hraw, Hfn in E.
  set (key := pathutil.Join (GetString c "repo") fn) in *.
  destruct (negb (AllowOverwrite server)).
  - unfold bind in E at 1. rewrite GetObject_step in E.
    destruct (GetObject key (backend w)).1; [by injection E as <- _|].
    unfold bind, StorageBackend_PutObject in E. simpl in E.
    destruct (PutObject key content _) as [[e'|] b1] eqn:Hput;
      [by injection E as <- _|].
    injection E as _ <-. simpl.
    by rewrite (PutObject_contents _ _ _ _ Hput), GetObject_contents.
  - unfold bind, StorageBackend_PutObject in E.
    destruct (PutObject key content (backend w)) as [[e'|] b1] eqn:Hput;
      [by injection E as <- _|].
    injection E as _ <-. simpl. by rewrite (PutObject_contents _ _ _ _ Hput).
Qed.

(** X20: upload, then delete, on a strict backend.  A raw upload
    answered 201, whose body the namer gives the filename of (name,
    version), into a tenant that had no such package; deleting (name,
    version) for that tenant right after is answered 200, and the store is
    the store before the upload, less the tenant's provenance object of
    that version if there was one. *)
Theorem upload_then_delete_restores server cu cd content w resp w1 :
  GetString cu "repo" = GetString cd "repo" →
  GetRawData cu = Ok content →
  ChartPackageFilenameFromContent content
  = Ok (ChartPackageFilenameFromNameVersion (Param cd "name") (Param cd "version")) →
  let pkg := pathutil.Join (GetString cd "repo")
               (ChartPackageFilenameFromNameVersion (Param cd "name") (Param cd "version")) in
  let prov := pathutil.Join (GetString cd "repo")
                (ProvenanceFilenameFromNameVersion (Param cd "name") (Param cd "version")) in
  contents (backend w) !! pkg = None →
  postPackageRequestHandler server cu w = (resp, w1) →
  Status resp = 201 →
  let run := deleteChartVersionRequestHandler server cd w1 in
  run.1 = JSON 200 H_deleted
  ∧ contents (backend run.2) = delete prov (contents (backend w)).
Proof.
  intros Hrepo Hraw Hfn pkg prov Hnone E Hs run.
  pose proof (package_saved_contents _ _ _ _ _ _ _ E Hs Hraw Hfn) as Hc.
  rewrite Hrepo in Hc. fold pkg in Hc.
  destruct (delete_run server cd w1) as [_ Hpresent].
  fold pkg prov run in Hpresent.
  destruct Hpresent as [Hr Hc2].
  { rewrite Hc, lookup_insert_eq. by eexists. }
  split; [done|]. rewrite Hc2, Hc.
  by rewrite delete_insert_eq, (delete_id _ _ Hnone).
Qed.

End Strict.

End MapBackends.

(** * Worked examples for the further properties *)

(** A form with both files into the empty store: the candidates are
    the package and the provenance file, there are two probes at the
    bare filenames and then two writes. *)
Lemma form_saved_trace_example :
  let run := postPackageAndProvenanceRequestHandler sampleServer
               (sampleContext "myrepo" (Err "no body") bothFiles "") (start emptyStore) in
  candidates {| FormFile := bothFiles |} (formFields sampleServer) = [pkgFile; provFile]
  ∧ [pkgFile; provFile] ≠ []
  ∧ trace run.2
    = [OpGet "mychart-0.1.0.tgz"; OpGet "mychart-0.1.0.tgz.prov";
       OpPut "myrepo/mychart-0.1.0.tgz" pkgBytes;
       OpPut "myrepo/mychart-0.1.0.tgz.prov" provBytes].
Proof.
  intros run. split; [reflexivity|].
  refine (form_saved_trace sampleServer
            (sampleContext "myrepo" (Err "no body") bothFiles "") (start emptyStore)
            run.1 run.2 _ _); vm_compute; reflexivity.
Defined.

(** The write loop on the two candidates when the second write fails. *)
Lemma storeLoop_failed_trace_example :
  let st := {| objects := ∅; failing_puts := ["myrepo/mychart-0.1.0.tgz.prov"] |} in
  let run := storeLoop "myrepo" [pkgFile; provFile] [] (start st) in
  ∃ written p rest e b1 b2,
    [pkgFile; provFile] = written ++ p :: rest
    ∧ put_each "myrepo" written st = Some b1
    ∧ PutObject (pathutil.Join "myrepo" (filename p)) (content p) b1 = (Some e, b2)
    ∧ run.1 = JSON 500 (H_error e)
    ∧ trace run.2 = [] ++ map (put_of "myrepo") written ++ [put_of "myrepo" p]
                    ++ map cleanup_of ([] ++ written)
    ∧ backend run.2 = delete_each ([] ++ written) b2.
Proof.
  intros st run.
  refine (storeLoop_failed_trace "myrepo" [pkgFile; provFile] [] (start st)
            run.1 run.2 _ _).
  - vm_compute. reflexivity.
  - vm_compute. discriminate.
Defined.

(** The extraction of a package whose bare filename is taken: 409. *)
Lemma extract_status_example :
  (Some "mychart-0.1.0.tgz already exists" = None ↔ 409 = 200)
  ∧ (is_Some (Some "mychart-0.1.0.tgz already exists") →
     409 = 500 ∨ 409 = 400 ∨ 409 = 409)
  ∧ (is_Some (@None packageOrProvenanceFile) →
     Some "mychart-0.1.0.tgz already exists" = None).
Proof.
  exact (extract_status_agrees_with_error sampleServer {| FormFile := chartOnly |}
           "chart" ChartPackageFilenameFromContent
           (start (storeWith "mychart-0.1.0.tgz" pkgBytes))).
Defined.

(** With overwrite allowed the form with both files is stored without
    a probe. *)
Lemma overwrite_never_probes_example :
  ∃ ops,
    trace (postPackageAndProvenanceRequestHandler overwriteServer
             (sampleContext "myrepo" (Err "no body") bothFiles "")
             (start emptyStore)).2 = [] ++ ops
    ∧ Forall (λ op, is_probe op = false) ops.
Proof.
  refine (overwrite_never_probes overwriteServer
            (sampleContext "myrepo" (Err "no body") bothFiles "") (start emptyStore)
            eq_refl _ (or_intror (or_intror eq_refl))).
Defined.

(** A raw upload into the empty store: one probe and one write, both at
    [myrepo/mychart-0.1.0.tgz]. *)
Lemma package_handler_keys_example :
  ∃ ops,
    trace (postPackageRequestHandler sampleServer
             (sampleContext "myrepo" (Ok pkgBytes) noForm "") (start emptyStore)).2
    = [] ++ ops
    ∧ (length ops ≤ 2)%nat
    ∧ ∀ op, op ∈ ops →
        ∃ content fn,
          Ok pkgBytes = Ok content
          ∧ ChartPackageFilenameFromContent content = Ok fn
          ∧ (op = OpGet (pathutil.Join "myrepo" fn)
             ∨ op = OpPut (pathutil.Join "myrepo" fn) content).
Proof.
  exact (package_handler_stays_on_tenant_key sampleServer
           (sampleContext "myrepo" (Ok pkgBytes) noForm "") (start emptyStore)).
Defined.

(** "latest" and the empty version, on the sample index. *)
Lemma latest_is_the_empty_version_example :
  getChartVersionRequestHandler sampleServer
    (sampleContext "myrepo" (Err "no body") noForm "latest") (start emptyStore)
  = getChartVersionRequestHandler sampleServer
      (sampleContext "myrepo" (Err "no body") noForm "") (start emptyStore).
Proof.
  refine (latest_is_the_empty_version (index := sampleIndex) sampleServer
            (sampleContext "myrepo" (Err "no body") noForm "latest")
            (sampleContext "myrepo" (Err "no body") noForm "")
            (start emptyStore) eq_refl eq_refl eq_refl eq_refl).
Defined.

(** A multipart request is answered the same with or without a raw
    body; a raw request the same with or without a form. *)
Lemma postRequestHandler_reads_example :
  postRequestHandler sampleServer "multipart/form-data"
    (sampleContext "myrepo" (Ok pkgBytes) bothFiles "") (start emptyStore)
  = postRequestHandler sampleServer "multipart/form-data"
      (sampleContext "myrepo" (Err "no body") bothFiles "") (start emptyStore)
  ∧ postRequestHandler sampleServer "application/gzip"
      (sampleContext "myrepo" (Ok pkgBytes) bothFiles "") (start emptyStore)
    = postRequestHandler sampleServer "application/gzip"
        (sampleContext "myrepo" (Ok pkgBytes) noForm "") (start emptyStore).
Proof.
  split.
  - refine (proj1 (postRequestHandler_reads sampleServer "multipart/form-data"
                     (sampleContext "myrepo" (Ok pkgBytes) bothFiles "")
                     (sampleContext "myrepo" (Err "no body") bothFiles "")
                     (start emptyStore) eq_refl) eq_refl eq_refl).
  - refine (proj2 (postRequestHandler_reads sampleServer "application/gzip"
                     (sampleContext "myrepo" (Ok pkgBytes) bothFiles "")
                     (sampleContext "myrepo" (Ok pkgBytes) noForm "")
                     (start emptyStore) eq_refl) _ eq_refl).
    discriminate.
Defined.

(** The same package as a form field and as a raw body. *)
Lemma form_with_package_only_example :
  postPackageAndProvenanceRequestHandler overwriteServer
    (sampleContext "myrepo" (Ok pkgBytes) chartOnly "") (start emptyStore)
  = postPackageRequestHandler overwriteServer
      (sampleContext "myrepo" (Ok pkgBytes) chartOnly "") (start emptyStore).
Proof.
  refine (form_with_package_only_is_raw_upload overwriteServer
            (sampleContext "myrepo" (Ok pkgBytes) chartOnly "") (start emptyStore)
            {| file_read := Ok pkgBytes |} {| Filename := "mychart-0.1.0.tgz" |}
            pkgBytes "mychart-0.1.0.tgz" eq_refl eq_refl eq_refl eq_refl eq_refl _ eq_refl).
  left. reflexivity.
Defined.

(** A form with both files into the empty store: both are stored. *)
Lemma form_saved_means_stored_example :
  let run := postPackageAndProvenanceRequestHandler sampleServer
               (sampleContext "myrepo" (Err "no body") bothFiles "") (start emptyStore) in
  [pkgFile; provFile] ≠ []
  ∧ contents (backend run.2)
    = <["myrepo/mychart-0.1.0.tgz.prov" := provBytes]>
        (<["myrepo/mychart-0.1.0.tgz" := pkgBytes]> (contents emptyStore)).
Proof.
  intros run.
  refine (form_saved_means_stored sampleServer
            (sampleContext "myrepo" (Err "no body") bothFiles "") (start emptyStore)
            run.1 run.2 _ _); vm_compute; reflexivity.
Defined.

(** A raw upload into the empty store. *)
Lemma package_saved_means_stored_example :
  let run := postPackageRequestHandler sampleServer
               (sampleContext "myrepo" (Ok pkgBytes) noForm "") (start emptyStore) in
  ∃ content fn,
    Ok pkgBytes = Ok content
    ∧ ChartPackageFilenameFromContent content = Ok fn
    ∧ contents (backend run.2)
      = <[pathutil.Join "myrepo" fn := content]> (contents emptyStore).
Proof.
  intros run.
  refine (package_saved_means_stored sampleServer
            (sampleContext "myrepo" (Ok pkgBytes) noForm "") (start emptyStore)
            run.1 run.2 _ _); vm_compute; reflexivity.
Defined.

(** Two bodies of the same chart version, overwrite allowed. *)
Lemma second_upload_wins_example :
  postPackageRequestHandler overwriteServer
    (sampleContext "myrepo" (Ok pkgBytes) noForm "") (start emptyStore)
  = (JSON 201 objectSavedResponse,
     {| backend := storeWith "myrepo/mychart-0.1.0.tgz" pkgBytes;
        trace := [OpPut (pathutil.Join "myrepo" "mychart-0.1.0.tgz") pkgBytes] |})
  ∧ postPackageRequestHandler overwriteServer
      (sampleContext "myrepo" (Ok pkgBytes2) noForm "")
      (start (storeWith "myrepo/mychart-0.1.0.tgz" pkgBytes))
    = (JSON 201 objectSavedResponse,
       {| backend := storeWith "myrepo/mychart-0.1.0.tgz" pkgBytes2;
          trace := [OpPut (pathutil.Join "myrepo" "mychart-0.1.0.tgz") pkgBytes2] |})
  ∧ contents (storeWith "myrepo/mychart-0.1.0.tgz" pkgBytes2)
    = <[pathutil.Join "myrepo" "mychart-0.1.0.tgz" := pkgBytes2]> (contents emptyStore).
Proof.
  refine (second_upload_wins overwriteServer
            (sampleContext "myrepo" (Ok pkgBytes) noForm "")
            (sampleContext "myrepo" (Ok pkgBytes2) noForm "")
            pkgBytes pkgBytes2 "mychart-0.1.0.tgz" emptyStore
            (storeWith "myrepo/mychart-0.1.0.tgz" pkgBytes)
            (storeWith "myrepo/mychart-0.1.0.tgz" pkgBytes2)
            eq_refl eq_refl eq_refl eq_refl eq_refl eq_refl _ _);
    vm_compute; reflexivity.
Defined.

(** The same provenance body twice, overwrite disabled. *)
Lemma provenance_conflict_example :
  postProvenanceFileRequestHandler sampleServer
    (sampleContext "myrepo" (Ok provBytes) noForm "") (start emptyStore)
  = (JSON 201 objectSavedResponse,
     {| backend := storeWith "mychart-0.1.0.tgz.prov" provBytes;
        trace := [OpGet (pathutil.Join "myrepo" "mychart-0.1.0.tgz.prov");
                  OpPut "mychart-0.1.0.tgz.prov" provBytes] |})
  ∧ postProvenanceFileRequestHandler sampleServer
      (sampleContext "myrepo" (Ok provBytes) noForm "")
      (start (storeWith "mychart-0.1.0.tgz.prov" provBytes))
    = (JSON 201 objectSavedResponse,
       {| backend := storeWith "mychart-0.1.0.tgz.prov" provBytes;
          trace := [OpGet (pathutil.Join "myrepo" "mychart-0.1.0.tgz.prov");
                    OpPut "mychart-0.1.0.tgz.prov" provBytes] |})
  ∧ contents (storeWith "mychart-0.1.0.tgz.prov" provBytes)
    !! pathutil.Join "myrepo" "mychart-0.1.0.tgz.prov" = None
  ∧ contents (storeWith "mychart-0.1.0.tgz.prov" provBytes)
    !! "mychart-0.1.0.tgz.prov" = Some provBytes.
Proof.
  refine (provenance_conflict_is_never_seen sampleServer
            (sampleContext "myrepo" (Ok provBytes) noForm "")
            provBytes "mychart-0.1.0.tgz.prov" emptyStore
            (storeWith "mychart-0.1.0.tgz.prov" provBytes)
            (storeWith "mychart-0.1.0.tgz.prov" provBytes)
            eq_refl eq_refl eq_refl _ _ _ _).
  - vm_compute. discriminate.
  - vm_compute. reflexivity.
  - vm_compute. reflexivity.
  - vm_compute. reflexivity.
Defined.

(** A raw upload onto a taken key, overwrite disabled: 409, store as
    before. *)
Lemma package_not_saved_example :
  let w := start (storeWith "myrepo/mychart-0.1.0.tgz" pkgBytes2) in
  let run := postPackageRequestHandler sampleServer
               (sampleContext "myrepo" (Ok pkgBytes) noForm "") w in
  contents (backend run.2) = contents (backend w)
  ∧ (Status run.1 = 409 →
     ∃ content fn,
       Ok pkgBytes = Ok content
       ∧ ChartPackageFilenameFromContent content = Ok fn
       ∧ is_Some (contents (backend w) !! pathutil.Join "myrepo" fn)).
Proof.
  intros w run.
  refine (package_not_saved_leaves_store sampleServer
            (sampleContext "myrepo" (Ok pkgBytes) noForm "") w run.1 run.2 _ _).
  - vm_compute. reflexivity.
  - vm_compute. discriminate.
Defined.

(** Deleting the stored version 0.1.0 of tenant [myrepo]. *)
Lemma delete_is_decided_example :
  let w := start (storeWith "myrepo/mychart-0.1.0.tgz" pkgBytes) in
  let run := deleteChartVersionRequestHandler sampleServer
               (sampleContext "myrepo" (Err "no body") noForm "0.1.0") w in
  (Status run.1 = 200
   ↔ is_Some (contents (backend w) !! pathutil.Join "myrepo" "mychart-0.1.0.tgz"))
  ∧ (Status run.1 = 200 →
     contents (backend run.2)
     = delete (pathutil.Join "myrepo" "mychart-0.1.0.tgz.prov")
         (delete (pathutil.Join "myrepo" "mychart-0.1.0.tgz") (contents (backend w)))
     ∧ ∀ k, k ≠ pathutil.Join "myrepo" "mychart-0.1.0.tgz" →
            k ≠ pathutil.Join "myrepo" "mychart-0.1.0.tgz.prov" →
            contents (backend run.2) !! k = contents (backend w) !! k)
  ∧ (Status run.1 ≠ 200 →
     run.1 = JSON 404 (H_error "not found")
     ∧ contents (backend run.2) = contents (backend w)).
Proof.
  intros w run.
  refine (delete_is_decided_by_the_package sampleServer
            (sampleContext "myrepo" (Err "no body") noForm "0.1.0") w run.1 run.2 _).
  vm_compute. reflexivity.
Defined.

(** Deleting the same version again. *)
Lemma second_delete_example :
  ∃ w2,
    deleteChartVersionRequestHandler sampleServer
      (sampleContext "myrepo" (Err "no body") noForm "0.1.0")
      {| backend := emptyStore;
         trace := [OpDelete "myrepo/mychart-0.1.0.tgz";
                   OpDelete "myrepo/mychart-0.1.0.tgz.prov"] |}
    = (JSON 404 (H_error "not found"), w2)
    ∧ contents (backend w2) = contents emptyStore.
Proof.
  refine (second_delete_is_not_found sampleServer
            (sampleContext "myrepo" (Err "no body") noForm "0.1.0")
            (start (storeWith "myrepo/mychart-0.1.0.tgz" pkgBytes))
            {| backend := emptyStore;
               trace := [OpDelete "myrepo/mychart-0.1.0.tgz";
                         OpDelete "myrepo/mychart-0.1.0.tgz.prov"] |} _).
  vm_compute. reflexivity.
Defined.

(** Uploading mychart 0.1.0 into the empty store and deleting it. *)
Lemma upload_then_delete_example :
  let c := sampleContext "myrepo" (Ok pkgBytes) noForm "0.1.0" in
  let w1 := (postPackageRequestHandler sampleServer c (start emptyStore)).2 in
  let run := deleteChartVersionRequestHandler sampleServer c w1 in
  run.1 = JSON 200 H_deleted
  ∧ contents (backend run.2)
    = delete (pathutil.Join "myrepo" "mychart-0.1.0.tgz.prov") (contents emptyStore).
Proof.
  intros c w1 run.
  refine (upload_then_delete_restores sampleServer c c pkgBytes (start emptyStore)
            (postPackageRequestHandler sampleServer c (start emptyStore)).1 w1
            eq_refl eq_refl eq_refl _ _ _).
  - vm_compute. reflexivity.
  - vm_compute. reflexivity.
  - vm_compute. reflexivity.
Defined.

(** A form carrying a package whose bare filename is taken: 409, store
    as before. *)
Lemma form_rejected_example :
  let w := start (storeWith "mychart-0.1.0.tgz" pkgBytes2) in
  let run := postPackageAndProvenanceRequestHandler sampleServer
               (sampleContext "myrepo" (Err "no body") chartOnly "") w in
  contents (backend run.2) = contents (backend w).
Proof.
  intros w run.
  refine (form_rejected_leaves_store sampleServer
            (sampleContext "myrepo" (Err "no body") chartOnly "") w run.1 run.2 _ _).
  - vm_compute. reflexivity.
  - right. vm_compute. reflexivity.
Defined.

(** The tenant key is taken and overwrite is disabled: 409. *)
Lemma package_conflict_example :
  Status (postPackageRequestHandler sampleServer
            (sampleContext "myrepo" (Ok pkgBytes) noForm "")
            (start (storeWith "myrepo/mychart-0.1.0.tgz" pkgBytes2))).1 = 409
  ↔ AllowOverwrite sampleServer = false
    ∧ is_Some (contents (backend (start (storeWith "myrepo/mychart-0.1.0.tgz" pkgBytes2)))
               !! pathutil.Join "myrepo" "mychart-0.1.0.tgz").
Proof.
  refine (package_conflict_iff_key_taken sampleServer
            (sampleContext "myrepo" (Ok pkgBytes) noForm "")
            (start (storeWith "myrepo/mychart-0.1.0.tgz" pkgBytes2))
            pkgBytes "mychart-0.1.0.tgz" eq_refl eq_refl).
Defined.

(** The tenant key is taken but the bare filename is not: no conflict
    is reported by the extraction. *)
Lemma extract_conflict_example :
  (extractAndValidateFormFile sampleServer {| FormFile := chartOnly |} "chart"
     ChartPackageFilenameFromContent
     (start (storeWith "myrepo/mychart-0.1.0.tgz" pkgBytes2))).1.1.2 = 409
  ↔ AllowOverwrite sampleServer = false
    ∧ is_Some (contents (backend (start (storeWith "myrepo/mychart-0.1.0.tgz" pkgBytes2)))
               !! "mychart-0.1.0.tgz").
Proof.
  refine (extract_conflict_iff_filename_taken sampleServer {| FormFile := chartOnly |}
            "chart" ChartPackageFilenameFromContent
            (start (storeWith "myrepo/mychart-0.1.0.tgz" pkgBytes2))
            {| file_read := Ok pkgBytes |} {| Filename := "mychart-0.1.0.tgz" |}
            pkgBytes "mychart-0.1.0.tgz" eq_refl eq_refl eq_refl eq_refl).
Defined.
